(** * A shallow embedding of the OneFuse/Athena IPAM client

    The Go sources are [api_client.go] (the REST client, the job poller
    and the domain operations) and the resource file of the Terraform
    binding layer ([resourceIPAMReservation*], [bindIPAMReservationResource]).

    Modelling choices:
    - Go errors are strings; a Go [error] that may be [nil] is [option string];
    - a Go function returning [(T, error)] over the network runs in the
      monad [M]: explicit state passing over a [World] (clock in ms, the
      trace of issued HTTP requests, and the scripted replies of the
      server), with the outcomes [Ok], [Err], [Panic] (a Go runtime panic:
      nil dereference, index out of range) and [Stuck] (the script of
      replies ran out: outside the model);
    - JSON bodies are typed payloads; decoding a payload of another shape
      into a struct is an unmarshal error. *)

From Stdlib Require Import String Ascii ZArith List Bool Lia.
Import ListNotations.
Open Scope string_scope.
Open Scope Z_scope.

(** ** Strings, as the Go standard library has them *)

Definition chr (n : nat) : string := String (ascii_of_nat n) EmptyString.

(** The double quote character. *)
Definition dq : string := chr 34.

Definition digit_char (d : Z) : ascii := ascii_of_nat (48 + Z.to_nat d).

(** Decimal digits of a non-negative number; Go ints are 64-bit, so the
    fuel 64 is never reached. *)
Fixpoint digits_aux (fuel : nat) (n : Z) (acc : string) : string :=
  match fuel with
  | O => acc
  | S f =>
      let acc' := String (digit_char (n mod 10)) acc in
      if n / 10 =? 0 then acc' else digits_aux f (n / 10) acc'
  end.

(** [strconv.Itoa]. *)
Definition Itoa (n : Z) : string :=
  if n <? 0 then "-" ++ digits_aux 64 (- n) "" else digits_aux 64 n "".

Definition is_digit (c : ascii) : bool :=
  let n := nat_of_ascii c in (48 <=? n)%nat && (n <=? 57)%nat.

Fixpoint parse_digits (s : string) (acc : Z) : option Z :=
  match s with
  | EmptyString => Some acc
  | String c s' =>
      if is_digit c
      then parse_digits s' (acc * 10 + Z.of_nat (nat_of_ascii c - 48))
      else None
  end.

(** An unsigned decimal literal with at least one digit. *)
Definition parse_unsigned (s : string) : option Z :=
  match s with
  | EmptyString => None
  | _ => parse_digits s 0
  end.

Definition int_max : Z := 2 ^ 63 - 1.
Definition int_min : Z := - 2 ^ 63.

(** A decimal literal with an optional sign. *)
Definition parse_signed (s : string) : option Z :=
  match s with
  | String "-" s' => option_map Z.opp (parse_unsigned s')
  | String "+" s' => parse_unsigned s'
  | _ => parse_unsigned s
  end.

(** [strconv.Atoi s]: the value and the error; on a syntax error the
    value is 0, out of the 64-bit range it is clamped. *)
Definition Atoi (s : string) : Z * option string :=
  let syntax := Some ("strconv.Atoi: parsing " ++ dq ++ s ++ dq ++ ": invalid syntax") in
  let range := Some ("strconv.Atoi: parsing " ++ dq ++ s ++ dq ++ ": value out of range") in
  match parse_signed s with
  | None => (0, syntax)
  | Some v =>
      if int_max <? v then (int_max, range)
      else if v <? int_min then (int_min, range)
      else (v, None)
  end.

Fixpoint split_aux (s : string) (cur : string) : list string :=
  match s with
  | EmptyString => [cur]
  | String c s' =>
      if Ascii.eqb c "/" then cur :: split_aux s' ""
      else split_aux s' (cur ++ String c EmptyString)
  end.

(** [strings.Split(s, "/")]: [Split("", "/")] is [[""]]. *)
Definition Split (s : string) : list string := split_aux s "".

Fixpoint prefixb (p s : string) : bool :=
  match p, s with
  | EmptyString, _ => true
  | String c p', String d s' => Ascii.eqb c d && prefixb p' s'
  | _, _ => false
  end.

(** [strings.Contains]. *)
Fixpoint Contains (s sub : string) : bool :=
  prefixb sub s ||
  match s with
  | EmptyString => false
  | String _ s' => Contains s' sub
  end.

Fixpoint concat_sep (sep : string) (l : list string) : string :=
  match l with
  | [] => ""
  | [x] => x
  | x :: l' => x ++ sep ++ concat_sep sep l'
  end.

(** [errors.New(msg)] is [Some msg]; [errors.WithMessage(err, msg)] of
    github.com/pkg/errors returns nil when [err] is nil. *)
Definition WithMessage (err : option string) (msg : string) : option string :=
  match err with
  | None => None
  | Some e => Some (msg ++ ": " ++ e)
  end.

(** ** Constants *)

Definition ApiVersion := "api/v3".
Definition ApiNamespace := "onefuse".
Definition WorkspaceResourceType := "workspaces".
Definition ModulePolicyResourceType := "modulePolicies".
Definition IPAMReservationResourceType := "ipamReservations".
Definition IPAMPolicyResourceType := "ipamPolicies".
Definition JobStatusResourceType := "jobStatus".
Definition JobSuccess := "Successful".
Definition JobFailed := "Failed".

(** ** Data model *)

Record Config := mkConfig {
  scheme : string;
  address : string;
  port : string;
  user : string;
  password : string;
  verifySSL : bool
}.

Record LinkRef := mkLinkRef { Href : string; Title : string }.

Record Workspace := mkWorkspace {
  ws_Links : option LinkRef;   (* _links.self *)
  ws_ID : Z;
  ws_Name : string
}.

Record ReservationLinks := mkReservationLinks {
  rl_Self : LinkRef;
  rl_Workspace : LinkRef;
  rl_Policy : LinkRef;
  rl_JobMetadata : LinkRef
}.

Record IPAMReservation := mkIPAMReservation {
  Links : option ReservationLinks;
  ID : Z;
  Hostname : string;
  PolicyID : Z;
  Policy : string;
  WorkspaceURL : string;
  IPaddress : string;
  Gateway : string;
  PrimaryDNS : string;
  SecondaryDNS : string;
  Network : string;
  Subnet : string;
  DNSSuffix : string;
  Netmask : string;
  NicLabel : string;
  TemplateProperties : list (string * string)
}.

Record JobLinks := mkJobLinks {
  jl_Self : LinkRef;
  jl_JobMetadata : LinkRef;
  jl_ManagedObject : LinkRef;
  jl_Policy : LinkRef;
  jl_Workspace : LinkRef
}.

Record ErrorMessage := mkErrorMessage { Message : string }.

Record ErrorDetailsT := mkErrorDetails {
  Code : Z;
  Errors : option (list ErrorMessage)   (* a pointer to a slice *)
}.

Record JobStatus := mkJobStatus {
  js_Links : option JobLinks;
  js_ID : Z;
  JobStateDescription : string;
  JobState : string;
  JobTrackingID : string;
  JobType : string;
  ErrorDetails : option ErrorDetailsT
}.

(** ** The world: clock, request trace and scripted server replies *)

(** A response body: the JSON objects the server sends for a job status,
    a reservation and a workspace list (the [WorkspacesListResponse]
    [_embedded.workspaces]), or a text that is not a JSON object (an
    error page, or the JSON [null]). *)
Inductive Payload :=
  | PJob (j : JobStatus)
  | PReservation (r : IPAMReservation)
  | PWorkspaces (ws : list Workspace)
  | PText (s : string).

(** The text of a body, as [string(b)] in the error paths. *)
Definition body_string (p : Payload) : string :=
  match p with
  | PText s => s
  | _ => "{...}"
  end.

Inductive HttpOutcome :=
  | DoErr (msg : string)                 (* client.Do returned an error *)
  | DoResp (status : Z) (body : Payload).

Record Reply := mkReply { duration : Z; outcome : HttpOutcome }.

Record Request := mkRequest {
  method : string;
  url : string;
  body : option IPAMReservation
}.

Record World := mkWorld {
  clock : Z;
  trace : list Request;
  script : list Reply
}.

Inductive Res (A : Type) :=
  | Ok (a : A)
  | Err (e : string)
  | Panic (p : string)
  | Stuck.
Arguments Ok {A}. Arguments Err {A}. Arguments Panic {A}. Arguments Stuck {A}.

(** A state and error monad; [M] runs over the [World]. *)
Definition ST (S A : Type) := S -> Res A * S.
Definition M (A : Type) := ST World A.

Definition ret {S A} (a : A) : ST S A := fun s => (Ok a, s).
Definition fail {S A} (e : string) : ST S A := fun s => (Err e, s).
Definition panic {S A} (p : string) : ST S A := fun s => (Panic p, s).
Definition lift {S A} (r : Res A) : ST S A := fun s => (r, s).

Definition bind {S A B} (m : ST S A) (k : A -> ST S B) : ST S B :=
  fun s =>
    match m s with
    | (Ok a, s') => k a s'
    | (Err e, s') => (Err e, s')
    | (Panic p, s') => (Panic p, s')
    | (Stuck, s') => (Stuck, s')
    end.

Notation "x <- m ;; k" := (bind m (fun x => k))
  (at level 61, m at next level, right associativity).

(** [client.Do(req)]: the request is logged, the next scripted reply is
    consumed and the clock advances by its duration. *)
Definition doRequest (rq : Request) : M HttpOutcome :=
  fun w =>
    let w1 := mkWorld (clock w) (trace w ++ [rq]) (script w) in
    match script w with
    | [] => (Stuck, w1)
    | r :: rest => (Ok (outcome r), mkWorld (clock w + duration r) (trace w1) rest)
    end.

Definition now : M Z := fun w => (Ok (clock w), w).

(** [time.Sleep]. *)
Definition sleep (ms : Z) : M unit :=
  fun w => (Ok tt, mkWorld (clock w + ms) (trace w) (script w)).

Definition wrap (msg e : string) : string := msg ++ ": " ++ e.

(** [errors.WithMessage(err, msg)] on the error of a computation. *)
Definition with_message {S A} (msg : string) (m : ST S A) : ST S A :=
  fun w =>
    match m w with
    | (Err e, w') => (Err (wrap msg e), w')
    | o => o
    end.

(** ** Transport helpers *)

(** [path.Join(ApiVersion, ApiNamespace, resourceType)]; [path.Clean]
    leaves these constant, slash-free segments as they are. *)
Definition collectionURL (config : Config) (resourceType : string) : string :=
  let baseURL := scheme config ++ "://" ++ address config ++ ":" ++ port config in
  let endpoint := ApiVersion ++ "/" ++ ApiNamespace ++ "/" ++ resourceType in
  baseURL ++ "/" ++ endpoint ++ "/".

Definition urlFromHref (config : Config) (href : string) : string :=
  scheme config ++ "://" ++ address config ++ ":" ++ port config ++ href.

Definition itemURL (config : Config) (resourceType : string) (id : Z) : string :=
  collectionURL config resourceType ++ Itoa id ++ "/".

(** [checkForErrors]: any status >= 400 is an error carrying the body. *)
Definition checkForErrors (status : Z) (b : Payload) : option string :=
  if 500 <=? status then Some (body_string b)
  else if 400 <=? status then Some (body_string b)
  else None.

Definition json_error := "json: cannot unmarshal".

(** [json.Unmarshal] into a zero struct: the keys of the target's JSON
    tags are filled, unknown keys are ignored, and [null] leaves the
    target as it is. A job status and a reservation share only the keys
    [id] and [_links] (in [_links]: [self], [workspace], [policy] and
    [jobMetadata]); a workspace list has neither. *)
Definition is_null (b : Payload) : bool :=
  match b with PText s => String.eqb s "null" | _ => false end.

Definition zeroLink : LinkRef := mkLinkRef "" "".

Definition zeroJob : JobStatus := mkJobStatus None 0 "" "" "" "" None.

Definition zeroReservation : IPAMReservation :=
  mkIPAMReservation None 0 "" 0 "" "" "" "" "" "" "" "" "" "" "" [].

Definition decodeJob (b : Payload) : option JobStatus :=
  match b with
  | PJob j => Some j
  | PReservation r =>
      Some (mkJobStatus
              (option_map (fun l => mkJobLinks (rl_Self l) (rl_JobMetadata l) zeroLink
                                      (rl_Policy l) (rl_Workspace l)) (Links r))
              (ID r) "" "" "" "" None)
  | PWorkspaces _ => Some zeroJob
  | PText _ => if is_null b then Some zeroJob else None
  end.

Definition decodeReservation (b : Payload) : option IPAMReservation :=
  match b with
  | PReservation r => Some r
  | PJob j =>
      Some (mkIPAMReservation
              (option_map (fun l => mkReservationLinks (jl_Self l) (jl_Workspace l) (jl_Policy l)
                                      (jl_JobMetadata l)) (js_Links j))
              (js_ID j) "" 0 "" "" "" "" "" "" "" "" "" "" "" [])
  | PWorkspaces _ => Some zeroReservation
  | PText _ => if is_null b then Some zeroReservation else None
  end.

(** [json.Unmarshal(body, &jobStatus)] with [jobStatus] a nil pointer:
    an object allocates the struct, [null] leaves the pointer nil. *)
Definition decodeJobPtr (b : Payload) : option (option JobStatus) :=
  if is_null b then Some None else option_map Some (decodeJob b).

(** [doGet(config, url, &v)] with the decoder of the type of [v]. *)
Definition doGet {A} (config : Config) (u : string) (decode : Payload -> option A) : M A :=
  o <- doRequest (mkRequest "GET" u None) ;;
  match o with
  | DoErr m => fail (wrap ("athena.apiClient: Failed to do request GET " ++ u) m)
  | DoResp st b =>
      match checkForErrors st b with
      | Some e => fail (wrap ("athena.apiClient: Request failed GET " ++ u) e)
      | None =>
          match decode b with
          | Some v => ret v
          | None => fail (wrap ("athena.apiClient: Failed to unmarshal response " ++ body_string b) json_error)
          end
      end
  end.

(** [http.NewRequest] with a JSON body; [json.Marshal] of a reservation
    (strings, ints and a string map) does not fail. *)
Definition buildPostRequest (config : Config) (resourceType : string) (requestEntity : IPAMReservation) : Request :=
  mkRequest "POST" (collectionURL config resourceType) (Some requestEntity).

(** ** The job protocol *)

Definition GetJobStatus (id : Z) (config : Config) : M JobStatus :=
  doGet config (itemURL config JobStatusResourceType id) decodeJob.

Definition PollingTimeoutMS : Z := 3600000.
Definition PollingIntervalMS : Z := 5000.
Definition TimeoutMessage := "Timed out while waiting for job to complete.".

Definition is_terminal (d : string) : bool :=
  String.eqb d JobSuccess || String.eqb d JobFailed.

(** The [for] loop of [waitForJob]: the condition, one fetch, the sleep,
    the timeout check. *)
Fixpoint poll (fuel : nat) (config : Config) (jobID startTime : Z)
    (jobStatusDescription : string) (jobStatus : option JobStatus) : M (option JobStatus) :=
  if negb (is_terminal jobStatusDescription) then
    match fuel with
    | O => lift Stuck
    | S f =>
        j <- GetJobStatus jobID config ;;
        _ <- sleep PollingIntervalMS ;;
        t <- now ;;
        if t - startTime >? PollingTimeoutMS then fail TimeoutMessage
        else poll f config jobID startTime (JobState j) (Some j)
    end
  else ret jobStatus.

(** Every iteration sleeps 5000 ms and the loop stops once more than
    3600000 ms have elapsed, so at most 721 iterations run. *)
Definition poll_fuel : nat := 721.

Definition waitForJob (jobID : Z) (config : Config) : M (option JobStatus) :=
  startTime <- now ;;
  poll poll_fuel config jobID startTime "" None.

Definition nil_deref := "runtime error: invalid memory address or nil pointer dereference".

(** [ioutil.ReadAll(req.Body)] in the error paths of [handleAsyncRequest]:
    a request built with a nil body (the DELETE) panics; the body of a
    POST has been read by the transport, and what is left of it, printed
    after the URL, is not modelled. *)
Definition readRequestBody {A} (req : Request) (k : M A) : M A :=
  match body req with
  | None => panic nil_deref
  | Some _ => k
  end.

(** [%v] of a [[]struct{ Message string }]. *)
Definition fmt_errors (l : list ErrorMessage) : string :=
  "[" ++ concat_sep " " (map (fun m => "{" ++ Message m ++ "}") l) ++ "]".


Definition checkForJobErrors (jobStatus : JobStatus) : Res unit :=
  if negb (String.eqb (JobState jobStatus) JobSuccess) then
    match ErrorDetails jobStatus with
    | None => Panic nil_deref
    | Some d =>
        match Errors d with
        | None => Panic nil_deref
        | Some l =>
            Err ("Job " ++ JobType jobStatus ++ " (" ++ Itoa (js_ID jobStatus)
                 ++ ") failed with message " ++ fmt_errors l)
        end
    end
  else Ok tt.

Definition handleAsyncRequest (req : Request) (config : Config) (httpVerb : string) : M JobStatus :=
  o <- doRequest req ;;
  match o with
  | DoErr m =>
      readRequestBody req
        (fail (wrap ("athena.apiClient: Failed to do request " ++ httpVerb ++ " " ++ url req ++ " ") m))
  | DoResp st b =>
      match checkForErrors st b with
      | Some e =>
          readRequestBody req
            (fail (wrap ("athena.apiClient: Failed to read response body from " ++ httpVerb ++ " " ++ url req ++ " ") e))
      | None =>
          match decodeJobPtr b with
          | None => fail (wrap ("athena.apiClient: Failed to unmarshal response " ++ body_string b) json_error)
          | Some None => panic nil_deref   (* jobStatus.ID on the nil pointer *)
          | Some (Some submitted) =>
              js <- waitForJob (js_ID submitted) config ;;
              match js with
              | None => panic nil_deref
              | Some j => _ <- lift (checkForJobErrors j) ;; ret j
              end
          end
      end
  end.

Definition handleAsyncRequestAndFetchManagdObject (req : Request) (config : Config) (httpVerb : string)
    : M (JobStatus * IPAMReservation) :=
  j <- handleAsyncRequest req config httpVerb ;;
  match js_Links j with
  | None => panic nil_deref
  | Some l =>
      e <- doGet config (urlFromHref config (Href (jl_ManagedObject l))) decodeReservation ;;
      ret (j, e)
  end.

(** ** Domain operations *)

Definition set_WorkspaceURL (u : string) (r : IPAMReservation) : IPAMReservation :=
  mkIPAMReservation (Links r) (ID r) (Hostname r) (PolicyID r) (Policy r) u
    (IPaddress r) (Gateway r) (PrimaryDNS r) (SecondaryDNS r) (Network r) (Subnet r)
    (DNSSuffix r) (Netmask r) (NicLabel r) (TemplateProperties r).

Definition set_Policy (p : string) (r : IPAMReservation) : IPAMReservation :=
  mkIPAMReservation (Links r) (ID r) (Hostname r) (PolicyID r) p (WorkspaceURL r)
    (IPaddress r) (Gateway r) (PrimaryDNS r) (SecondaryDNS r) (Network r) (Subnet r)
    (DNSSuffix r) (Netmask r) (NicLabel r) (TemplateProperties r).

Definition defaultWorkspaceFilter := "filter=name.exact:Default".

Definition defaultWorkspaceURL (config : Config) : string :=
  collectionURL config WorkspaceResourceType ++ "?" ++ defaultWorkspaceFilter.

Definition findDefaultWorkspaceID (config : Config) : M string :=
  let u := defaultWorkspaceURL config in
  o <- doRequest (mkRequest "GET" u None) ;;
  match o with
  | DoErr m => fail (wrap ("athena.findDefaultWorkspaceID: Failed to do request GET " ++ u) m)
  | DoResp st b =>
      (* readResponse *)
      match checkForErrors st b with
      | Some e => fail e
      | None =>
          (* the error of json.Unmarshal is dropped: data stays empty *)
          let workspaces := match b with PWorkspaces ws => ws | _ => [] end in
          match workspaces with
          | [] =>
              (* clientErr is nil here *)
              match WithMessage None "athena.findDefaultWorkspaceID: Failed to find default workspace!" with
              | None => ret ""
              | Some e => fail e
              end
          | w0 :: _ => ret (Itoa (ws_ID w0))
          end
      end
  end.

Definition findWorkspaceURLOrDefault (config : Config) (workspaceURL : string) : M string :=
  if String.eqb workspaceURL "" then
    workspaceID <- with_message "athena.apiClient: Failed to find default workspace"
                     (findDefaultWorkspaceID config) ;;
    let (workspaceIDInt, err) := Atoi workspaceID in
    match err with
    | Some e => fail (wrap ("athena.apiClient: Failed to convert Workspace ID '" ++ workspaceID ++ "' to integer") e)
    | None => ret (itemURL config WorkspaceResourceType workspaceIDInt)
    end
  else ret workspaceURL.

Definition PolicyRequiredMessage := "athena.apiClient: IPAM Record Create requires a PolicyID or Policy URL".

(** [CreateIPAMReservation(newIPAMRecord *IPAMReservation)]: besides the
    result and the world, the final value of the caller's record, which
    the Go code updates through the pointer. *)
Definition CreateIPAMReservation (config : Config) (newIPAMRecord : IPAMReservation) (w : World)
    : Res IPAMReservation * IPAMReservation * World :=
  let (wr, w1) := findWorkspaceURLOrDefault config (WorkspaceURL newIPAMRecord) w in
  match wr with
  | Panic p => (Panic p, newIPAMRecord, w1)
  | Stuck => (Stuck, newIPAMRecord, w1)
  | Err e => (Err e, set_WorkspaceURL "" newIPAMRecord, w1)
  | Ok u =>
      let r1 := set_WorkspaceURL u newIPAMRecord in
      if String.eqb (Policy r1) "" then
        if negb (PolicyID r1 =? 0) then
          let r2 := set_Policy (itemURL config WorkspaceResourceType (PolicyID r1)) r1 in
          let req := buildPostRequest config IPAMReservationResourceType r2 in
          match handleAsyncRequestAndFetchManagdObject req config "POST" w1 with
          | (Ok (_, ipamRecord), w2) => (Ok ipamRecord, r2, w2)
          | (Err e, w2) => (Err e, r2, w2)
          | (Panic p, w2) => (Panic p, r2, w2)
          | (Stuck, w2) => (Stuck, r2, w2)
          end
        else (Err PolicyRequiredMessage, r1, w1)
      else (Err PolicyRequiredMessage, r1, w1)
  end.

Definition NotImplementedMessage := "athena.apiClient: Not implemented yet".

Definition UpdateIPAMReservation (id : Z) (updatedIPAMReservation : IPAMReservation) : M IPAMReservation :=
  fail NotImplementedMessage.

(** ** The binding layer (Terraform [schema.ResourceData]) *)

Inductive Value :=
  | VStr (s : string)
  | VInt (n : Z)
  | VList (l : list string)
  | VMap (m : list (string * string)).

Definition Value_eq_dec (x y : Value) : {x = y} + {x <> y}.
Proof.
  decide equality;
    repeat first [ apply string_dec | apply Z.eq_dec
                 | apply list_eq_dec | decide equality ].
Defined.

(** The prior state and the planned state of the resource. *)
Record ResourceData := mkResourceData {
  rd_Id : string;
  old_state : string -> Value;
  new_state : string -> Value
}.

Definition HasChange (d : ResourceData) (k : string) : bool :=
  if Value_eq_dec (old_state d k) (new_state d k) then false else true.

Definition Get (d : ResourceData) (k : string) : Value := new_state d k.

(** [d.Set(k, v)]: every value set below has the type of its schema
    attribute, so the returned error is nil. *)
Definition dSet (k : string) (v : Value) : ST ResourceData (option string) :=
  fun d =>
    (Ok None, mkResourceData (rd_Id d) (old_state d)
                (fun k' => if String.eqb k' k then v else new_state d k')).

Definition set_or (k : string) (v : Value) (msg : string)
    (next : ST ResourceData unit) : ST ResourceData unit :=
  err <- dSet k v ;;
  match WithMessage err msg with
  | Some e => fail e
  | None => next
  end.

Definition index_out_of_range := "runtime error: index out of range".

(** [s[i]] on a Go slice. *)
Definition index {S} (l : list string) (i : Z) : ST S string :=
  if (0 <=? i) && (i <? Z.of_nat (length l)) then ret (nth (Z.to_nat i) l "")
  else panic index_out_of_range.

Definition deref {S A} (p : option A) : ST S A :=
  match p with Some a => ret a | None => panic nil_deref end.

Definition bindIPAMReservationResource (ipamRecord : IPAMReservation) : ST ResourceData unit :=
  set_or "computed_hostname" (VStr (Hostname ipamRecord)) ("Cannot set name: " ++ Hostname ipamRecord) (
  links <- deref (Links ipamRecord) ;;
  set_or "workspace_url" (VStr (Href (rl_Workspace links))) ("Cannot set workspace: " ++ Href (rl_Workspace links)) (
  set_or "ip_address" (VStr (IPaddress ipamRecord)) ("Cannot set IPAddress: " ++ IPaddress ipamRecord) (
  set_or "netmask" (VStr (Netmask ipamRecord)) ("Cannot set Netmask " ++ Netmask ipamRecord) (
  set_or "primary_dns" (VStr (PrimaryDNS ipamRecord)) ("Cannot set Primmary DNS: " ++ PrimaryDNS ipamRecord) (
  set_or "secondary_dns" (VStr (SecondaryDNS ipamRecord)) ("Cannot set Secondary DNS: " ++ SecondaryDNS ipamRecord) (
  set_or "gateway" (VStr (Gateway ipamRecord)) ("Cannot set Gateway: " ++ Gateway ipamRecord) (
  set_or "network" (VStr (Network ipamRecord)) ("Cannot set Network: " ++ Network ipamRecord) (
  set_or "subnet" (VStr (Subnet ipamRecord)) ("Cannot set Subnet: " ++ Subnet ipamRecord) (
  set_or "nic_label" (VStr (NicLabel ipamRecord)) ("Cannot set NicLabel: " ++ NicLabel ipamRecord) (
  set_or "dns_suffix" (VStr (DNSSuffix ipamRecord)) ("Cannot set DNSSuffix: " ++ DNSSuffix ipamRecord) (
  let ipamPolicyURLSplit := Split (Href (rl_Policy links)) in
  ipamPolicyID <- index ipamPolicyURLSplit (Z.of_nat (length ipamPolicyURLSplit) - 2) ;;
  let (ipamPolicyIDInt, _) := Atoi ipamPolicyID in
  set_or "policy_id" (VInt ipamPolicyIDInt) "Cannot set policy" (
  ret tt)))))))))))).

(** Go type assertions on the values of [d.Get]. *)
Definition conversion_panic := "interface conversion".

Definition asString {S} (v : Value) : ST S string :=
  match v with VStr s => ret s | _ => panic conversion_panic end.
Definition asInt {S} (v : Value) : ST S Z :=
  match v with VInt n => ret n | _ => panic conversion_panic end.
Definition asList {S} (v : Value) : ST S (list string) :=
  match v with VList l => ret l | _ => panic conversion_panic end.
Definition asMap {S} (v : Value) : ST S (list (string * string)) :=
  match v with VMap m => ret m | _ => panic conversion_panic end.

Definition update_changed (d : ResourceData) : bool :=
  (HasChange d "hostname" ||
   HasChange d "computed_hostname" ||
   HasChange d "policy_id" ||
   HasChange d "workspace_url") ||
  HasChange d "ip_address" ||
  HasChange d "netmask" ||
  HasChange d "subnet" ||
  HasChange d "network" ||
  HasChange d "gateway" ||
  HasChange d "primary_dns" ||
  HasChange d "secondary_dns" ||
  HasChange d "dns_suffix" ||
  HasChange d "nic_label" ||
  HasChange d "template_properties".

(** The remote part of the update: reading the planned record and
    calling [UpdateIPAMReservation]. *)
Definition update_call (d : ResourceData) : M IPAMReservation :=
  ipam_Suffixes <- asList (Get d "dns_search_suffix") ;;
  hostname <- asString (Get d "hostname") ;;
  policyID <- asInt (Get d "policy_id") ;;
  workspaceURL <- asString (Get d "workspace_url") ;;
  ipAddress <- asString (Get d "ip_address") ;;
  netmask <- asString (Get d "netmask") ;;
  subnet <- asString (Get d "subnet") ;;
  gateway <- asString (Get d "gateway") ;;
  network <- asString (Get d "network") ;;
  primaryDNS <- asString (Get d "primary_dns") ;;
  secondaryDNS <- asString (Get d "secondary_dns") ;;
  dnsSuffix <- asString (Get d "dns_suffix") ;;
  nicLabel <- asString (Get d "nic_label") ;;
  templateProperties <- asMap (Get d "template_properties") ;;
  let desiredIPAMRecord :=
    mkIPAMReservation None 0 hostname policyID "" workspaceURL ipAddress gateway
      primaryDNS secondaryDNS network subnet dnsSuffix netmask nicLabel templateProperties in
  let (intID, err) := Atoi (rd_Id d) in
  match err with
  | Some e => fail e
  | None => UpdateIPAMReservation intID desiredIPAMRecord
  end.

Definition resourceIPAMReservationUpdate (d : ResourceData) (w : World)
    : Res unit * ResourceData * World :=
  if negb (update_changed d) then (Ok tt, d, w)
  else
    match update_call d w with
    | (Ok ipamRecord, w') =>
        let (r, d') := bindIPAMReservationResource ipamRecord d in (r, d', w')
    | (Err e, w') => (Err e, d, w')
    | (Panic p, w') => (Panic p, d, w')
    | (Stuck, w') => (Stuck, d, w')
    end.

(** ** Further client operations *)

Definition GetIPAMReservation (config : Config) (id : Z) : M IPAMReservation :=
  let u := itemURL config IPAMReservationResourceType id in
  doGet config u decodeReservation.

(** [http.NewRequest("DELETE", url, nil)] on a well-formed URL does not
    fail; the job status returned by [handleAsyncRequest] is dropped. *)
Definition DeleteIPAMReservation (config : Config) (id : Z) : M unit :=
  let u := itemURL config IPAMReservationResourceType id in
  let req := mkRequest "DELETE" u None in
  _ <- handleAsyncRequest req config "DELETE" ;;
  ret tt.

(** ** Further entry points of the binding layer *)

(** [d.SetId(id)]. *)
Definition SetId (id : string) (d : ResourceData) : ResourceData :=
  mkResourceData id (old_state d) (new_state d).

(** The record [resourceIPAMReservationCreate] builds from the planned
    state (the type assertions in the order of the Go code). *)
Definition create_record (d : ResourceData) : M IPAMReservation :=
  ipam_Suffixes <- asList (Get d "dns_search_suffix") ;;
  hostname <- asString (Get d "hostname") ;;
  policyID <- asInt (Get d "policy_id") ;;
  workspaceURL <- asString (Get d "workspace_url") ;;
  ipAddress <- asString (Get d "ip_address") ;;
  netmask <- asString (Get d "netmask") ;;
  subnet <- asString (Get d "subnet") ;;
  gateway <- asString (Get d "gateway") ;;
  network <- asString (Get d "network") ;;
  primaryDNS <- asString (Get d "primary_dns") ;;
  secondaryDNS <- asString (Get d "secondary_dns") ;;
  dnsSuffix <- asString (Get d "dns_suffix") ;;
  nicLabel <- asString (Get d "nic_label") ;;
  templateProperties <- asMap (Get d "template_properties") ;;
  ret (mkIPAMReservation None 0 hostname policyID "" workspaceURL ipAddress gateway
         primaryDNS secondaryDNS network subnet dnsSuffix netmask nicLabel templateProperties).

Definition resourceIPAMReservationCreate (d : ResourceData) (config : Config) (w : World)
    : Res unit * ResourceData * World :=
  match create_record d w with
  | (Ok newIPAMRecord, w1) =>
      match CreateIPAMReservation config newIPAMRecord w1 with
      | (Ok ipamRecord, _, w2) =>
          let d1 := SetId (Itoa (ID ipamRecord)) d in
          let (r, d2) := bindIPAMReservationResource ipamRecord d1 in (r, d2, w2)
      | (Err e, _, w2) => (Err e, d, w2)
      | (Panic p, _, w2) => (Panic p, d, w2)
      | (Stuck, _, w2) => (Stuck, d, w2)
      end
  | (Err e, w1) => (Err e, d, w1)
  | (Panic p, w1) => (Panic p, d, w1)
  | (Stuck, w1) => (Stuck, d, w1)
  end.

Definition resourceIPAMReservationRead (d : ResourceData) (config : Config) (w : World)
    : Res unit * ResourceData * World :=
  let (intID, err) := Atoi (rd_Id d) in
  match err with
  | Some e => (Err e, d, w)
  | None =>
      match GetIPAMReservation config intID w with
      | (Ok ipamRecord, w1) =>
          let (r, d1) := bindIPAMReservationResource ipamRecord d in (r, d1, w1)
      | (Err e, w1) => (Err e, d, w1)
      | (Panic p, w1) => (Panic p, d, w1)
      | (Stuck, w1) => (Stuck, d, w1)
      end
  end.

Definition resourceIPAMReservationDelete (d : ResourceData) (config : Config) (w : World)
    : Res unit * ResourceData * World :=
  let (intID, err) := Atoi (rd_Id d) in
  match err with
  | Some e => (Err e, d, w)
  | None => let (r, w1) := DeleteIPAMReservation config intID w in (r, d, w1)
  end.

(** ** Vocabulary for the binding-layer properties *)

(** The attributes [bindIPAMReservationResource] writes. *)
Definition bound_fields : list string :=
  ["computed_hostname"; "workspace_url"; "ip_address"; "netmask"; "primary_dns";
   "secondary_dns"; "gateway"; "network"; "subnet"; "nic_label"; "dns_suffix"; "policy_id"].

(** The string attributes the create and update paths assert on. *)
Definition string_fields : list string :=
  ["hostname"; "workspace_url"; "ip_address"; "netmask"; "subnet"; "gateway"; "network";
   "primary_dns"; "secondary_dns"; "dns_suffix"; "nic_label"].

Definition is_str (v : Value) : bool := match v with VStr _ => true | _ => false end.
Definition is_int (v : Value) : bool := match v with VInt _ => true | _ => false end.
Definition is_list (v : Value) : bool := match v with VList _ => true | _ => false end.
Definition is_map (v : Value) : bool := match v with VMap _ => true | _ => false end.

(** Every planned attribute has the type of its schema entry. *)
Definition state_well_typed (d : ResourceData) : bool :=
  is_list (Get d "dns_search_suffix") && forallb (fun k => is_str (Get d k)) string_fields &&
  is_int (Get d "policy_id") && is_map (Get d "template_properties").

Definition getS (d : ResourceData) (k : string) : string :=
  match Get d k with VStr s => s | _ => "" end.
Definition getI (d : ResourceData) (k : string) : Z :=
  match Get d k with VInt n => n | _ => 0 end.
Definition getM (d : ResourceData) (k : string) : list (string * string) :=
  match Get d k with VMap m => m | _ => [] end.

(** The record the planned state describes. *)
Definition record_of_state (d : ResourceData) : IPAMReservation :=
  mkIPAMReservation None 0 (getS d "hostname") (getI d "policy_id") "" (getS d "workspace_url")
    (getS d "ip_address") (getS d "gateway") (getS d "primary_dns") (getS d "secondary_dns")
    (getS d "network") (getS d "subnet") (getS d "dns_suffix") (getS d "netmask")
    (getS d "nic_label") (getM d "template_properties").

(** What binding a record yields: success, or the panic it runs into. *)
Definition bind_outcome (r : IPAMReservation) : Res unit :=
  match Links r with
  | None => Panic nil_deref
  | Some l => if (2 <=? length (Split (Href (rl_Policy l))))%nat then Ok tt else Panic index_out_of_range
  end.

(** ** Helpers of the development *)

Definition jobGET (config : Config) (id : Z) : Request :=
  mkRequest "GET" (itemURL config JobStatusResourceType id) None.

Definition job_reply (d : Z) (j : JobStatus) : Reply := mkReply d (DoResp 200 (PJob j)).

Definition is_get (rq : Request) : Prop := method rq = "GET".

(** A computation that only ever issues GET requests. *)
Definition only_gets {A} (m : M A) : Prop :=
  forall w, exists l, trace (snd (m w)) = (trace w ++ l)%list /\ Forall is_get l.

(** The replies of a sequence of status fetches: duration and status. *)
Definition job_replies (l : list (Z * JobStatus)) : list Reply :=
  map (fun p => job_reply (fst p) (snd p)) l.

Definition total (l : list (Z * JobStatus)) : Z := fold_right (fun p acc => fst p + acc) 0 l.

Definition pending_fetch (p : Z * JobStatus) : Prop :=
  is_terminal (JobState (snd p)) = false /\ 0 <= fst p.

(** ** Example inputs *)

Definition ex_config : Config := mkConfig "https" "onefuse.example.com" "443" "admin" "secret" true.

Definition ex_link (href : string) : LinkRef := mkLinkRef href "".

Definition ex_job_links : JobLinks :=
  mkJobLinks (ex_link "/api/v3/onefuse/jobStatus/7/") (ex_link "/api/v3/onefuse/jobMetadata/7/")
    (ex_link "/api/v3/onefuse/ipamReservations/5/") (ex_link "/api/v3/onefuse/modulePolicies/42/")
    (ex_link "/api/v3/onefuse/workspaces/1/").

Definition ex_job (state : string) (details : option ErrorDetailsT) : JobStatus :=
  mkJobStatus (Some ex_job_links) 7 "" state "" "Create IPAM Reservation" details.

Definition ex_workspace_url : string := "https://onefuse.example.com:443/api/v3/onefuse/workspaces/1/".

Definition ex_record : IPAMReservation :=
  mkIPAMReservation None 0 "web01" 42 "" ex_workspace_url "" "" "" "" "" "" "" "" "" [].

Definition ex_reservation_links (policy_href : string) : ReservationLinks :=
  mkReservationLinks (ex_link "/api/v3/onefuse/ipamReservations/5/") (ex_link "/api/v3/onefuse/workspaces/1/")
    (ex_link policy_href) (ex_link "/api/v3/onefuse/jobMetadata/7/").

Definition ex_created : IPAMReservation :=
  mkIPAMReservation (Some (ex_reservation_links "/api/v3/onefuse/modulePolicies/42/")) 5 "web01" 42
    "/api/v3/onefuse/modulePolicies/42/" "/api/v3/onefuse/workspaces/1/" "10.0.0.5" "10.0.0.1"
    "10.0.0.2" "10.0.0.3" "10.0.0.0/24" "" "example.com" "255.255.255.0" "nic0" [].

Definition ok_reply (p : Payload) : Reply := mkReply 0 (DoResp 200 p).

(** The status fetch completes after 3599000 ms: within the budget. *)
Definition ex_world_late : World :=
  mkWorld 0 [] [job_reply 3599000 (ex_job "Successful" None)].

(** Instantaneous fetches: the 721st fetch happens at 3600000 ms. *)
Definition ex_world_instant : World :=
  mkWorld 0 [] (repeat (job_reply 0 (ex_job "Pending" None)) 720
                ++ [job_reply 0 (ex_job "Successful" None)])%list.

Definition ex_world_create (states : list JobStatus) : World :=
  mkWorld 0 [] (ok_reply (PJob (ex_job "Pending" None))
                :: job_replies (map (fun j => (0, j)) states)
                ++ [ok_reply (PReservation ex_created)])%list.

Definition bad_hostname_details : ErrorDetailsT :=
  mkErrorDetails 400 (Some [mkErrorMessage "bad hostname"]).

(** Both a policy id and a policy URL. *)
Definition ex_record_both : IPAMReservation :=
  set_Policy "https://onefuse.example.com:443/api/v3/onefuse/modulePolicies/42/" ex_record.

(** The policy URL the create operation computes for policy id 42. *)
Definition ex_policy_url_sent : string := "https://onefuse.example.com:443/api/v3/onefuse/workspaces/42/".

(** No workspace URL, a policy id. *)
Definition ex_record_no_workspace : IPAMReservation := set_WorkspaceURL "" ex_record.

(** The schema attributes of the [athena_ipam_record] resource. *)
Definition schema_fields : list string :=
  ["hostname"; "computed_hostname"; "policy_id"; "workspace_url"; "ip_address"; "netmask";
   "gateway"; "network"; "subnet"; "primary_dns"; "secondary_dns"; "nic_label"; "dns_suffix";
   "dns_search_suffix"; "template_properties"].

(** The attributes whose change [resourceIPAMReservationUpdate] tests. *)
Definition tracked_fields : list string :=
  ["hostname"; "computed_hostname"; "policy_id"; "workspace_url"; "ip_address"; "netmask";
   "subnet"; "network"; "gateway"; "primary_dns"; "secondary_dns"; "dns_suffix"; "nic_label";
   "template_properties"].

Definition ex_state (suffixes : list string) : string -> Value :=
  fun k =>
    if String.eqb k "policy_id" then VInt 42
    else if String.eqb k "dns_search_suffix" then VList suffixes
    else if String.eqb k "template_properties" then VMap []
    else VStr "".

(** Only the DNS search suffixes change. *)
Definition ex_rd_suffix_change : ResourceData :=
  mkResourceData "5" (ex_state []) (ex_state ["corp.example.com"]).

(** A created reservation whose policy is linked by a non-numeric segment. *)
Definition ex_created_named_policy : IPAMReservation :=
  mkIPAMReservation (Some (ex_reservation_links "/api/v3/onefuse/modulePolicies/default/")) 5 "web01" 42
    "/api/v3/onefuse/modulePolicies/default/" "/api/v3/onefuse/workspaces/1/" "10.0.0.5" "10.0.0.1"
    "10.0.0.2" "10.0.0.3" "10.0.0.0/24" "" "example.com" "255.255.255.0" "nic0" [].

(** A computation that first issues [rq] and afterwards only GETs. *)
Definition logs_then_gets {A} (rq : Request) (m : M A) : Prop :=
  forall w, exists l, trace (snd (m w)) = (trace w ++ rq :: l)%list /\ Forall is_get l.

(** The requests a create operation may issue: GETs and the submission
    of the record. *)
Definition create_request (config : Config) (r : IPAMReservation) (rq : Request) : Prop :=
  is_get rq \/ rq = buildPostRequest config IPAMReservationResourceType r.

Definition pure {A} (m : M A) : Prop := forall w, snd (m w) = w.

(** A computation that leaves the world alone and never succeeds. *)
Definition quiet {A} (m : M A) : Prop := forall w, snd (m w) = w /\ forall a, fst (m w) <> Ok a.

(** Neither or both of a policy id and a policy URL. *)
Definition policy_ref_invalid (r : IPAMReservation) : Prop :=
  (Policy r = "" /\ PolicyID r = 0) \/ (Policy r <> "" /\ PolicyID r <> 0).

Definition ex_default_workspace : Workspace :=
  mkWorkspace (Some (ex_link "/api/v3/onefuse/workspaces/1/")) 1 "Default".

(** A planned resource with a workspace URL and policy id 42. *)
Definition ex_rd_new : ResourceData :=
  mkResourceData "" (ex_state [])
    (fun k => if String.eqb k "workspace_url" then VStr ex_workspace_url else ex_state [] k).

(** The same plan with DNS search suffixes. *)
Definition ex_rd_new_suffix : ResourceData :=
  mkResourceData "" (ex_state [])
    (fun k => if String.eqb k "dns_search_suffix" then VList ["corp.example.com"] else new_state ex_rd_new k).

(** The same plan with policy id 0. *)
Definition ex_rd_no_policy : ResourceData :=
  mkResourceData "" (ex_state [])
    (fun k => if String.eqb k "policy_id" then VInt 0 else new_state ex_rd_new k).

(** A resource stored under Id 5, and one under a non-numeric Id. *)
Definition ex_rd_saved : ResourceData := mkResourceData "5" (ex_state []) (ex_state []).
Definition ex_rd_named : ResourceData := mkResourceData "web01" (ex_state []) (ex_state []).

Definition ex_world_empty : World := mkWorld 0 [] [].

Definition ex_world_default : World :=
  mkWorld 0 [] [mkReply 3 (DoResp 200 (PWorkspaces [ex_default_workspace]))].

Definition ex_world_rejected : World := mkWorld 0 [] [mkReply 2 (DoResp 404 (PText "not found"))].

Definition ex_world_fetched : World := mkWorld 0 [] [ok_reply (PReservation ex_created)].

Definition ex_world_delete : World :=
  mkWorld 0 [] [ok_reply (PJob (ex_job "Pending" None)); job_reply 0 (ex_job "Successful" None)].

Definition ex_post : Request := buildPostRequest ex_config IPAMReservationResourceType ex_record.

Definition ex_delete : Request := mkRequest "DELETE" (itemURL ex_config IPAMReservationResourceType 5) None.

Definition ex_world_create_ok : World := ex_world_create [ex_job "Successful" None].

Definition ex_create_run : Res unit * ResourceData * World :=
  resourceIPAMReservationCreate ex_rd_new ex_config ex_world_create_ok.

Definition ex_submit_run : Res JobStatus * World :=
  handleAsyncRequest ex_post ex_config "POST" ex_world_create_ok.

(** A binding-layer step that never touches the resource Id or the
    prior state. *)
Definition keeps_id {A} (m : ST ResourceData A) : Prop :=
  forall d, rd_Id (snd (m d)) = rd_Id d /\ old_state (snd (m d)) = old_state d.

(** Two resource states that differ at most in the planned value of
    attribute [k]. *)
Definition same_but (k : string) (d1 d2 : ResourceData) : Prop :=
  rd_Id d1 = rd_Id d2 /\ old_state d1 = old_state d2 /\
  forall k', k' <> k -> new_state d1 k' = new_state d2 k'.

(** A binding-layer step whose outcome does not depend on attribute [k]
    and which keeps two states that differ only there so. *)
Definition blind_to {A} (k : string) (m : ST ResourceData A) : Prop :=
  forall d1 d2, same_but k d1 d2 -> fst (m d1) = fst (m d2) /\ same_but k (snd (m d1)) (snd (m d2)).

(** * Properties *)

Lemma bind_Ok {S A B} (m : ST S A) (k : A -> ST S B) s a s' :
  m s = (Ok a, s') -> bind m k s = k a s'.
Proof. intros H; unfold bind; rewrite H; reflexivity. Qed.

Lemma og_none {A} (m : M A) : (forall w, trace (snd (m w)) = trace w) -> only_gets m.
Proof.
  intros H w; exists []; rewrite H, app_nil_r; split; [reflexivity | constructor].
Qed.

Lemma og_ret {A} (a : A) : only_gets (ret a).
Proof. apply og_none; reflexivity. Qed.

Lemma og_fail {A} e : only_gets (@fail World A e).
Proof. apply og_none; reflexivity. Qed.

Lemma og_panic {A} e : only_gets (@panic World A e).
Proof. apply og_none; reflexivity. Qed.

Lemma og_lift {A} (r : Res A) : only_gets (lift r).
Proof. apply og_none; reflexivity. Qed.

Lemma og_now : only_gets now.
Proof. apply og_none; reflexivity. Qed.

Lemma og_sleep ms : only_gets (sleep ms).
Proof. apply og_none; reflexivity. Qed.

Lemma og_bind {A B} (m : M A) (k : A -> M B) :
  only_gets m -> (forall a, only_gets (k a)) -> only_gets (bind m k).
Proof.
  intros Hm Hk w; unfold bind.
  destruct (Hm w) as [l1 [E1 F1]].
  destruct (m w) as [r w'] eqn:Em; simpl in E1.
  destruct r as [a | e | p |];
    try (exists l1; split; assumption).
  destruct (Hk a w') as [l2 [E2 F2]].
  exists (l1 ++ l2)%list; split.
  - rewrite E2, E1, app_assoc; reflexivity.
  - apply Forall_app; split; assumption.
Qed.

Lemma og_with_message {A} msg (m : M A) : only_gets m -> only_gets (with_message msg m).
Proof.
  intros H w; unfold with_message.
  destruct (H w) as [l [E F]]; exists l.
  destruct (m w) as [[] w']; simpl in *; split; assumption.
Qed.

Lemma og_doRequest rq : is_get rq -> only_gets (doRequest rq).
Proof.
  intros G w; unfold doRequest; exists [rq].
  destruct (script w); split; auto.
Qed.

Ltac og_tac :=
  repeat first
    [ apply og_ret | apply og_fail | apply og_panic | apply og_lift
    | apply og_now | apply og_sleep
    | apply og_doRequest; reflexivity
    | apply og_with_message
    | apply og_bind; [ | intro ]
    | match goal with
      | |- only_gets (if ?b then _ else _) => destruct b
      | |- only_gets (match ?x with _ => _ end) => destruct x
      | |- only_gets (let (_, _) := ?x in _) => destruct x
      end ].

Lemma og_doGet {A} config u (decode : Payload -> option A) : only_gets (doGet config u decode).
Proof. unfold doGet; og_tac. Qed.

Lemma og_poll fuel config id start desc last : only_gets (poll fuel config id start desc last).
Proof.
  revert desc last; induction fuel as [| f IH]; intros desc last; simpl;
    destruct (negb (is_terminal desc)); og_tac;
    try apply og_doGet; try apply IH.
Qed.

Lemma og_waitForJob id config : only_gets (waitForJob id config).
Proof. unfold waitForJob; apply og_bind; [apply og_now | intro; apply og_poll]. Qed.

Lemma og_findWorkspaceURLOrDefault config u : only_gets (findWorkspaceURLOrDefault config u).
Proof. unfold findWorkspaceURLOrDefault, findDefaultWorkspaceID; og_tac. Qed.

Lemma bind_assoc {S A B C} (m : ST S A) (f : A -> ST S B) (g : B -> ST S C) s :
  bind (bind m f) g s = bind m (fun a => bind (f a) g) s.
Proof. unfold bind; destruct (m s) as [[] s']; reflexivity. Qed.

Lemma og_after_request {A} rq (k : HttpOutcome -> M A) :
  (forall o, only_gets (k o)) ->
  forall w, exists l, trace (snd (bind (doRequest rq) k w)) = (trace w ++ rq :: l)%list.
Proof.
  intros Hk w; unfold bind, doRequest.
  destruct (script w) as [| r rest]; simpl.
  - exists []; reflexivity.
  - destruct (Hk (outcome r) (mkWorld (clock w + duration r) (trace w ++ [rq]) rest)) as [l [E _]].
    exists l; rewrite E; simpl; rewrite <- app_assoc; reflexivity.
Qed.

(** ** The poll loop *)

Lemma poll_S f config id start desc last :
  poll (S f) config id start desc last =
  if negb (is_terminal desc) then
    (j <- GetJobStatus id config ;;
     _ <- sleep PollingIntervalMS ;;
     t <- now ;;
     if t - start >? PollingTimeoutMS then fail TimeoutMessage
     else poll f config id start (JobState j) (Some j))
  else ret last.
Proof. reflexivity. Qed.

Lemma waitForJob_poll id config w :
  waitForJob id config w = poll poll_fuel config id (clock w) "" None w.
Proof. reflexivity. Qed.

Lemma poll_stop fuel config id start desc last w :
  is_terminal desc = true -> poll fuel config id start desc last w = (Ok last, w).
Proof. intros H; destruct fuel; simpl; rewrite H; reflexivity. Qed.

Lemma poll_step f config id start desc last w d j rest :
  is_terminal desc = false ->
  script w = job_reply d j :: rest ->
  clock w + d + PollingIntervalMS - start <= PollingTimeoutMS ->
  poll (S f) config id start desc last w =
  poll f config id start (JobState j) (Some j)
    (mkWorld (clock w + d + PollingIntervalMS) (trace w ++ [jobGET config id]) rest).
Proof.
  intros Ht Hs Hc; rewrite poll_S, Ht; simpl negb; cbv iota beta.
  unfold GetJobStatus, doGet, bind, doRequest, sleep, now, ret; simpl; rewrite Hs; simpl.
  destruct (Z.gtb_spec (clock w + d + PollingIntervalMS - start) PollingTimeoutMS); [lia |].
  reflexivity.
Qed.

Lemma total_app l1 l2 : total (l1 ++ l2) = total l1 + total l2.
Proof. induction l1 as [| p l IH]; simpl; [reflexivity | rewrite IH; lia]. Qed.

Lemma total_nonneg pre : Forall pending_fetch pre -> 0 <= total pre.
Proof. induction 1 as [| p l [_ Hp] _ IH]; simpl; lia. Qed.

Lemma poll_run config id start : forall pre fin rest fuel desc last w,
  is_terminal desc = false ->
  Forall pending_fetch pre ->
  is_terminal (JobState (snd fin)) = true -> 0 <= fst fin ->
  script w = (job_replies (pre ++ [fin]) ++ rest)%list ->
  clock w - start + total (pre ++ [fin]) + PollingIntervalMS * Z.of_nat (S (length pre))
    <= PollingTimeoutMS ->
  (length pre < fuel)%nat ->
  poll fuel config id start desc last w =
  (Ok (Some (snd fin)),
   mkWorld (clock w + total (pre ++ [fin]) + PollingIntervalMS * Z.of_nat (S (length pre)))
           (trace w ++ repeat (jobGET config id) (S (length pre))) rest).
Proof.
  induction pre as [| p pre IH]; intros fin rest fuel desc last w Hd Hpre Hfin Hfin0 Hs Hc Hf;
    (destruct fuel as [| f]; [simpl in Hf; lia |]); simpl in Hs.
  - rewrite (poll_step f config id start desc last w (fst fin) (snd fin) rest Hd Hs)
      by (simpl in Hc; unfold PollingIntervalMS in *; lia).
    rewrite poll_stop by exact Hfin; simpl.
    f_equal; f_equal; unfold PollingIntervalMS; lia.
  - inversion Hpre as [| ? ? [Hp Hp0] Hpre']; subst.
    assert (Ht := total_nonneg _ Hpre').
    rewrite total_app in Hc; simpl in Hc.
    rewrite (poll_step f config id start desc last w (fst p) (snd p) _ Hd Hs)
      by (unfold PollingIntervalMS in *; lia).
    rewrite (IH fin rest f (JobState (snd p)) (Some (snd p))); simpl; auto.
    + rewrite !total_app; simpl.
      f_equal; f_equal; [unfold PollingIntervalMS; lia |].
      rewrite <- app_assoc; reflexivity.
    + rewrite total_app; simpl; unfold PollingIntervalMS in *; lia.
    + simpl in Hf; lia.
Qed.

Lemma waitForJob_run config id pre fin rest w :
  Forall pending_fetch pre ->
  is_terminal (JobState (snd fin)) = true -> 0 <= fst fin ->
  script w = (job_replies (pre ++ [fin]) ++ rest)%list ->
  total (pre ++ [fin]) + PollingIntervalMS * Z.of_nat (S (length pre)) <= PollingTimeoutMS ->
  waitForJob id config w =
  (Ok (Some (snd fin)),
   mkWorld (clock w + total (pre ++ [fin]) + PollingIntervalMS * Z.of_nat (S (length pre)))
           (trace w ++ repeat (jobGET config id) (S (length pre))) rest).
Proof.
  intros Hpre Hfin Hfin0 Hs Hc.
  rewrite waitForJob_poll.
  assert (Ht := total_nonneg _ Hpre); rewrite total_app in Hc; simpl in Hc.
  apply poll_run; auto.
  - rewrite total_app; simpl; lia.
  - unfold poll_fuel, PollingIntervalMS, PollingTimeoutMS in *; lia.
Qed.

Lemma waitForJob_first_fetch config id w :
  exists l, trace (snd (waitForJob id config w)) = (trace w ++ jobGET config id :: l)%list.
Proof.
  rewrite waitForJob_poll; unfold poll_fuel; rewrite poll_S.
  change (is_terminal "") with false; cbn [negb].
  unfold GetJobStatus, doGet at 1.
  rewrite bind_assoc.
  apply og_after_request; intro o.
  apply og_bind; [destruct o; og_tac |intro].
  og_tac; apply og_poll.
Qed.

(** ** The create flow *)

Lemma doGet_ok {A} config u (decode : Payload -> option A) w d b a rest :
  script w = mkReply d (DoResp 200 b) :: rest -> decode b = Some a ->
  doGet config u decode w =
  (Ok a, mkWorld (clock w + d) (trace w ++ [mkRequest "GET" u None]) rest).
Proof.
  intros Hs Hd; unfold doGet, bind, doRequest; rewrite Hs; simpl.
  rewrite Hd; reflexivity.
Qed.

Lemma handleAsyncRequest_ok req config verb w d0 j0 rest0 j w2 :
  script w = mkReply d0 (DoResp 200 (PJob j0)) :: rest0 ->
  waitForJob (js_ID j0) config (mkWorld (clock w + d0) (trace w ++ [req]) rest0) = (Ok (Some j), w2) ->
  checkForJobErrors j = Ok tt ->
  handleAsyncRequest req config verb w = (Ok j, w2).
Proof.
  intros Hs Hw Hc; unfold handleAsyncRequest.
  unfold bind at 1, doRequest at 1; rewrite Hs; simpl.
  unfold bind at 1; rewrite Hw; simpl.
  unfold bind, lift; rewrite Hc; reflexivity.
Qed.

Lemma fetchManaged_ok req config verb w j w2 l e w3 :
  handleAsyncRequest req config verb w = (Ok j, w2) ->
  js_Links j = Some l ->
  doGet config (urlFromHref config (Href (jl_ManagedObject l))) decodeReservation w2 = (Ok e, w3) ->
  handleAsyncRequestAndFetchManagdObject req config verb w = (Ok (j, e), w3).
Proof.
  intros Hh Hl Hg; unfold handleAsyncRequestAndFetchManagdObject.
  unfold bind at 1; rewrite Hh; rewrite Hl.
  unfold bind; rewrite Hg; reflexivity.
Qed.

Lemma findWorkspace_given config u w :
  u <> "" -> findWorkspaceURLOrDefault config u w = (Ok u, w).
Proof.
  intros H; unfold findWorkspaceURLOrDefault.
  apply String.eqb_neq in H; rewrite H; reflexivity.
Qed.

Lemma set_WorkspaceURL_same r : set_WorkspaceURL (WorkspaceURL r) r = r.
Proof. destruct r; reflexivity. Qed.

Lemma checkForJobErrors_success j : JobState j = JobSuccess -> checkForJobErrors j = Ok tt.
Proof. intros H; unfold checkForJobErrors; rewrite H; reflexivity. Qed.

Lemma create_three config r w j0 s1 s2 s3 l e d0 d1 d2 d3 d4 rest :
  WorkspaceURL r <> "" -> Policy r = "" -> PolicyID r <> 0 ->
  JobState s1 = "Pending" -> JobState s2 = "Pending" -> JobState s3 = "Successful" ->
  js_Links s3 = Some l ->
  0 <= d1 -> 0 <= d2 -> 0 <= d3 ->
  d1 + d2 + d3 + 3 * PollingIntervalMS <= PollingTimeoutMS ->
  script w = mkReply d0 (DoResp 200 (PJob j0))
             :: (job_replies [(d1, s1); (d2, s2); (d3, s3)]
                 ++ mkReply d4 (DoResp 200 (PReservation e)) :: rest)%list ->
  exists r' w',
    CreateIPAMReservation config r w = (Ok e, r', w') /\
    trace w' = (trace w ++
                [buildPostRequest config IPAMReservationResourceType r';
                 jobGET config (js_ID j0); jobGET config (js_ID j0); jobGET config (js_ID j0);
                 mkRequest "GET" (urlFromHref config (Href (jl_ManagedObject l))) None])%list.
Proof.
  intros Hws Hp Hid H1 H2 H3 Hl Hd1 Hd2 Hd3 Hc Hs.
  set (r' := set_Policy (itemURL config WorkspaceResourceType (PolicyID r)) r).
  set (req := buildPostRequest config IPAMReservationResourceType r').
  set (w1 := mkWorld (clock w + d0) (trace w ++ [req]) (job_replies [(d1, s1); (d2, s2); (d3, s3)]
                 ++ mkReply d4 (DoResp 200 (PReservation e)) :: rest)).
  assert (Hw := waitForJob_run config (js_ID j0) [(d1, s1); (d2, s2)] (d3, s3)
                  (mkReply d4 (DoResp 200 (PReservation e)) :: rest) w1).
  specialize (Hw ltac:(repeat constructor; unfold pending_fetch; simpl;
                       rewrite ?H1, ?H2; auto)
                 ltac:(simpl; rewrite H3; reflexivity) Hd3 eq_refl
                 ltac:(simpl; unfold PollingIntervalMS in *; lia)).
  simpl in Hw.
  assert (Hh := handleAsyncRequest_ok req config "POST" w d0 j0 _ s3 _ Hs Hw
                  (checkForJobErrors_success s3 H3)).
  eapply fetchManaged_ok in Hh as Hf; [| exact Hl | eapply doGet_ok; reflexivity].
  eexists r', _.
  unfold CreateIPAMReservation.
  rewrite findWorkspace_given by exact Hws.
  rewrite set_WorkspaceURL_same, Hp; simpl String.eqb; cbv iota.
  apply Z.eqb_neq in Hid; rewrite Hid; simpl negb; cbv iota zeta.
  fold r' req; rewrite Hf; split; [reflexivity |].
  simpl; rewrite <- !app_assoc; reflexivity.
Qed.

(** ** Strings *)

Lemma prefixb_app p s : prefixb p (p ++ s) = true.
Proof. induction p as [| c p IH]; simpl; [reflexivity | rewrite Ascii.eqb_refl; exact IH]. Qed.

Lemma prefixb_app_r p s t : prefixb p s = true -> prefixb p (s ++ t) = true.
Proof.
  revert s; induction p as [| c p IH]; intros s H; [reflexivity |].
  destruct s as [| d s]; simpl in *; [discriminate |].
  apply andb_true_iff in H as [H1 H2]; rewrite H1; simpl; apply IH; exact H2.
Qed.

Lemma Contains_prefix s sub : prefixb sub s = true -> Contains s sub = true.
Proof. destruct s; simpl; intros H; rewrite H; reflexivity. Qed.

Lemma Contains_app_l a s sub : Contains s sub = true -> Contains (a ++ s) sub = true.
Proof.
  induction a as [| c a IH]; simpl; intros H; [exact H |].
  rewrite IH by exact H; apply orb_true_r.
Qed.

Lemma Contains_app_r a b sub : Contains a sub = true -> Contains (a ++ b) sub = true.
Proof.
  induction a as [| c a IH]; intros H.
  - destruct sub; [| discriminate]; destruct b; reflexivity.
  - simpl in *; apply orb_true_iff in H as [H | H].
    + assert (P := prefixb_app_r _ (String c a) b H); simpl in P; rewrite P; reflexivity.
    + rewrite IH by exact H; apply orb_true_r.
Qed.

Lemma Contains_mid a b c : Contains (a ++ b ++ c) b = true.
Proof. apply Contains_app_l, Contains_prefix, prefixb_app. Qed.

Lemma Contains_concat_sep sep l x sub :
  In x l -> Contains x sub = true -> Contains (concat_sep sep l) sub = true.
Proof.
  induction l as [| y l IH]; intros H Hx; [destruct H |].
  destruct H as [-> | H].
  - destruct l; [exact Hx |].
    change (Contains (x ++ sep ++ concat_sep sep (s :: l)) sub = true).
    apply Contains_app_r, Hx.
  - destruct l as [| z l]; [destruct H |].
    change (Contains (y ++ sep ++ concat_sep sep (z :: l)) sub = true).
    apply Contains_app_l, Contains_app_l, IH; assumption.
Qed.

(** ** The job-failure message *)

Lemma checkForJobErrors_failed_message j d l :
  JobState j = JobFailed -> ErrorDetails j = Some d -> Errors d = Some l ->
  exists msg,
    checkForJobErrors j = Err msg /\
    Contains msg (JobType j) = true /\
    Contains msg (Itoa (js_ID j)) = true /\
    (forall m, In m l -> Contains msg (Message m) = true).
Proof.
  intros Hs Hd He; unfold checkForJobErrors; rewrite Hs, Hd, He.
  assert (E : String.eqb JobFailed JobSuccess = false) by reflexivity.
  rewrite E; cbn [negb].
  eexists; split; [reflexivity |].
  split; [apply Contains_mid |].
  split.
  - apply (Contains_app_l "Job "), (Contains_app_l (JobType j)), (Contains_app_l " ("), Contains_prefix, prefixb_app.
  - intros m Hm.
    apply (Contains_app_l "Job "), (Contains_app_l (JobType j)), (Contains_app_l " ("),
          (Contains_app_l (Itoa (js_ID j))), (Contains_app_l ") failed with message "),
          (Contains_app_l "["), Contains_app_r.
    apply Contains_concat_sep with (x := "{" ++ Message m ++ "}").
    + apply in_map_iff; exists m; split; [reflexivity | exact Hm].
    + apply Contains_mid.
Qed.

(** ** Claims *)

(** C1 (code_bug): the timeout check of [waitForJob] runs after the
    sleep whatever status was fetched, so a terminal status fetched
    within the one-hour budget is discarded for the timeout error: once
    after a fetch that completes at 3599000 ms, and once with
    instantaneous fetches, at the 721st fetch, issued at 3600000 ms. *)
Lemma C1_terminal_status_discarded :
  clock ex_world_late + duration (hd (ok_reply (PText "")) (script ex_world_late)) <= PollingTimeoutMS /\
  is_terminal (JobState (ex_job "Successful" None)) = true /\
  fst (waitForJob 7 ex_config ex_world_late) = Err TimeoutMessage /\
  fst (waitForJob 7 ex_config ex_world_instant) = Err TimeoutMessage /\
  clock (snd (waitForJob 7 ex_config ex_world_instant)) = 3605000 /\
  length (trace (snd (waitForJob 7 ex_config ex_world_instant))) = 721%nat /\
  last (trace (snd (waitForJob 7 ex_config ex_world_instant))) (jobGET ex_config 0) = jobGET ex_config 7.
Proof. vm_compute. repeat split; discriminate || reflexivity. Qed.

(** C2: the poll loop issues one status fetch per iteration until the
    first terminal status: the first request of [waitForJob] is a status
    fetch whatever the job state at submission, a run of non-terminal
    statuses ended by a terminal one (within the budget) costs exactly one
    fetch each and returns the terminal status; for the statuses
    ["Pending"; "Pending"; "Successful"] the create operation issues the
    submission, exactly 3 status fetches, then the GET of the managed
    object link, and returns the fetched entity. *)
Theorem C2_one_fetch_per_iteration :
  (forall config id w,
     exists l, trace (snd (waitForJob id config w)) = (trace w ++ jobGET config id :: l)%list) /\
  (forall config id pre fin rest w,
     Forall pending_fetch pre ->
     is_terminal (JobState (snd fin)) = true -> 0 <= fst fin ->
     script w = (job_replies (pre ++ [fin]) ++ rest)%list ->
     total (pre ++ [fin]) + PollingIntervalMS * Z.of_nat (S (length pre)) <= PollingTimeoutMS ->
     waitForJob id config w =
     (Ok (Some (snd fin)),
      mkWorld (clock w + total (pre ++ [fin]) + PollingIntervalMS * Z.of_nat (S (length pre)))
              (trace w ++ repeat (jobGET config id) (S (length pre))) rest)) /\
  (forall config r w j0 s1 s2 s3 l e d0 d1 d2 d3 d4 rest,
     WorkspaceURL r <> "" -> Policy r = "" -> PolicyID r <> 0 ->
     JobState s1 = "Pending" -> JobState s2 = "Pending" -> JobState s3 = "Successful" ->
     js_Links s3 = Some l ->
     0 <= d1 -> 0 <= d2 -> 0 <= d3 ->
     d1 + d2 + d3 + 3 * PollingIntervalMS <= PollingTimeoutMS ->
     script w = mkReply d0 (DoResp 200 (PJob j0))
                :: (job_replies [(d1, s1); (d2, s2); (d3, s3)]
                    ++ mkReply d4 (DoResp 200 (PReservation e)) :: rest)%list ->
     exists r' w',
       CreateIPAMReservation config r w = (Ok e, r', w') /\
       trace w' = (trace w ++
                   [buildPostRequest config IPAMReservationResourceType r';
                    jobGET config (js_ID j0); jobGET config (js_ID j0); jobGET config (js_ID j0);
                    mkRequest "GET" (urlFromHref config (Href (jl_ManagedObject l))) None])%list).
Proof.
  split; [exact waitForJob_first_fetch |].
  split; [exact waitForJob_run | exact create_three].
Qed.

Lemma C2_one_fetch_per_iteration_witness :
  script (ex_world_create [ex_job "Pending" None; ex_job "Pending" None; ex_job "Successful" None])
  = ok_reply (PJob (ex_job "Pending" None))
    :: (job_replies [(0, ex_job "Pending" None); (0, ex_job "Pending" None);
                     (0, ex_job "Successful" None)]
        ++ mkReply 0 (DoResp 200 (PReservation ex_created)) :: [])%list /\
  exists r' w',
    CreateIPAMReservation ex_config ex_record
      (ex_world_create [ex_job "Pending" None; ex_job "Pending" None; ex_job "Successful" None])
    = (Ok ex_created, r', w') /\
    trace w' = ([] ++
                [buildPostRequest ex_config IPAMReservationResourceType r';
                 jobGET ex_config 7; jobGET ex_config 7; jobGET ex_config 7;
                 mkRequest "GET" (urlFromHref ex_config (Href (jl_ManagedObject ex_job_links))) None])%list.
Proof.
  split; [reflexivity |].
  apply (proj2 (proj2 C2_one_fetch_per_iteration) ex_config ex_record
           (ex_world_create [ex_job "Pending" None; ex_job "Pending" None; ex_job "Successful" None])
           (ex_job "Pending" None)
           (ex_job "Pending" None) (ex_job "Pending" None) (ex_job "Successful" None)
           ex_job_links ex_created 0 0 0 0 0 []);
    try reflexivity; try discriminate; unfold PollingIntervalMS, PollingTimeoutMS; lia.
Defined.

Lemma handleAsyncRequest_after_poll req config verb w d0 j0 rest0 j w2 :
  script w = mkReply d0 (DoResp 200 (PJob j0)) :: rest0 ->
  waitForJob (js_ID j0) config (mkWorld (clock w + d0) (trace w ++ [req]) rest0) = (Ok (Some j), w2) ->
  handleAsyncRequest req config verb w =
  (match checkForJobErrors j with
   | Ok _ => Ok j | Err e => Err e | Panic p => Panic p | Stuck => Stuck
   end, w2).
Proof.
  intros Hs Hw; unfold handleAsyncRequest.
  unfold bind at 1, doRequest at 1; rewrite Hs; simpl.
  unfold bind at 1; rewrite Hw; simpl.
  unfold bind, lift; destruct (checkForJobErrors j); reflexivity.
Qed.

(** C3 (code_bug): a "Failed" job whose error details are absent makes
    the create operation panic (nil dereference in [checkForJobErrors])
    instead of returning the failure error; with the error details
    [{code:400, errors:[{message:"bad hostname"}]}], the error text does
    contain "bad hostname", the job type and the job id. *)
Lemma C3_failed_job_without_details :
  fst (fst (CreateIPAMReservation ex_config ex_record (ex_world_create [ex_job "Failed" None])))
  = Panic nil_deref /\
  exists msg,
    fst (fst (CreateIPAMReservation ex_config ex_record
                (ex_world_create [ex_job "Failed" (Some bad_hostname_details)]))) = Err msg /\
    Contains msg "bad hostname" = true /\
    Contains msg "Create IPAM Reservation" = true /\
    Contains msg "(7)" = true.
Proof.
  split; [vm_compute; reflexivity |].
  eexists; split; [vm_compute; reflexivity |].
  vm_compute; repeat split.
Qed.

(** C8: the failure branch of [checkForJobErrors] dereferences the error
    details and their errors list: for a "Failed" job where either is
    absent it panics instead of returning an error value, and so does the
    job engine once the poll loop returns such a job. *)
Theorem C8_failed_job_nil_details_panics :
  (forall j,
     JobState j = JobFailed ->
     (ErrorDetails j = None \/ exists c, ErrorDetails j = Some (mkErrorDetails c None)) ->
     checkForJobErrors j = Panic nil_deref) /\
  (forall req config verb w d0 j0 rest0 j w2,
     JobState j = JobFailed ->
     (ErrorDetails j = None \/ exists c, ErrorDetails j = Some (mkErrorDetails c None)) ->
     script w = mkReply d0 (DoResp 200 (PJob j0)) :: rest0 ->
     waitForJob (js_ID j0) config (mkWorld (clock w + d0) (trace w ++ [req]) rest0) = (Ok (Some j), w2) ->
     handleAsyncRequest req config verb w = (Panic nil_deref, w2)).
Proof.
  assert (Hc : forall j,
     JobState j = JobFailed ->
     (ErrorDetails j = None \/ exists c, ErrorDetails j = Some (mkErrorDetails c None)) ->
     checkForJobErrors j = Panic nil_deref).
  { intros j Hs Hd; unfold checkForJobErrors; rewrite Hs.
    destruct Hd as [Hd | [c Hd]]; rewrite Hd; reflexivity. }
  split; [exact Hc |].
  intros req config verb w d0 j0 rest0 j w2 Hs Hd Hw Hp.
  rewrite (handleAsyncRequest_after_poll req config verb w d0 j0 rest0 j w2 Hw Hp).
  rewrite (Hc j Hs Hd); reflexivity.
Qed.

Lemma C8_failed_job_nil_details_panics_witness :
  JobState (ex_job "Failed" None) = JobFailed /\
  checkForJobErrors (ex_job "Failed" None) = Panic nil_deref /\
  checkForJobErrors (ex_job "Failed" (Some (mkErrorDetails 400 None))) = Panic nil_deref /\
  handleAsyncRequest (buildPostRequest ex_config IPAMReservationResourceType ex_record) ex_config "POST"
    (ex_world_create [ex_job "Failed" None])
  = (Panic nil_deref,
     snd (waitForJob 7 ex_config
            (mkWorld 0 [buildPostRequest ex_config IPAMReservationResourceType ex_record]
               (job_replies [(0, ex_job "Failed" None)] ++ [ok_reply (PReservation ex_created)]))%list)).
Proof.
  split; [reflexivity |].
  split; [apply (proj1 C8_failed_job_nil_details_panics); [reflexivity | left; reflexivity] |].
  split; [apply (proj1 C8_failed_job_nil_details_panics); [reflexivity | right; exists 400; reflexivity] |].
  apply (proj2 C8_failed_job_nil_details_panics) with (d0 := 0) (j0 := ex_job "Pending" None)
    (rest0 := (job_replies [(0, ex_job "Failed" None)] ++ [ok_reply (PReservation ex_created)])%list)
    (j := ex_job "Failed" None);
    [reflexivity | left; reflexivity | reflexivity | vm_compute; reflexivity].
Defined.

(** ** Workspace resolution and the policy check *)

Lemma findWorkspace_default config w :
  forall res w1, findWorkspaceURLOrDefault config "" w = (res, w1) ->
  trace w1 = (trace w ++ [mkRequest "GET" (defaultWorkspaceURL config) None])%list /\
  (forall p, res <> Panic p).
Proof.
  intros res w1 H.
  unfold findWorkspaceURLOrDefault, findDefaultWorkspaceID, with_message, bind, doRequest in H.
  simpl in H.
  destruct (script w) as [| rep rest]; [injection H as <- <-; split; [reflexivity | discriminate] |].
  destruct (outcome rep) as [m | st b]; simpl in H;
    [injection H as <- <-; split; [reflexivity | discriminate] |].
  destruct (checkForErrors st b); simpl in H;
    [injection H as <- <-; split; [reflexivity | discriminate] |].
  destruct (match b with PWorkspaces ws => ws | _ => [] end) as [| w0 ws]; simpl in H;
    [injection H as <- <-; split; [reflexivity | discriminate] |].
  destruct (Atoi (Itoa (ws_ID w0))) as [n [e |]]; simpl in H;
    injection H as <- <-; (split; [reflexivity | discriminate]).
Qed.

Lemma policy_check_rejects {A} r u (x y : A) :
  policy_ref_invalid r ->
  (if String.eqb (Policy (set_WorkspaceURL u r)) "" then
     if negb (PolicyID (set_WorkspaceURL u r) =? 0) then x else y
   else y) = y.
Proof.
  intros [[Hp Hi] | [Hp Hi]]; cbn [Policy PolicyID set_WorkspaceURL].
  - rewrite Hp, Hi; reflexivity.
  - apply String.eqb_neq in Hp; rewrite Hp; reflexivity.
Qed.

(** C4 (corrected): with neither a policy id nor a policy URL, and no
    workspace URL, the request-construction error comes after the
    default-workspace lookup: one GET is issued. *)
Lemma C4_workspace_lookup_precedes_policy_check :
  let r := set_WorkspaceURL "" (mkIPAMReservation None 0 "web01" 0 "" "" "" "" "" "" "" "" "" "" "" []) in
  let '(res, _, w') := CreateIPAMReservation ex_config r
                         (mkWorld 0 [] [ok_reply (PWorkspaces [ex_default_workspace])]) in
  Policy r = "" /\ PolicyID r = 0 /\
  res = Err PolicyRequiredMessage /\
  trace w' = [mkRequest "GET" (defaultWorkspaceURL ex_config) None] /\ trace w' <> [].
Proof. vm_compute. repeat split; discriminate. Qed.

(** C4, amended: a create request with neither or both of a policy id
    and a policy URL never succeeds, never panics and never issues a
    mutating call; with a workspace URL it fails with the
    request-construction error before any HTTP call; without one, the
    only request issued is the GET of the default workspace, and the
    request-construction error follows when that lookup resolves a
    workspace, the lookup's error otherwise. *)
Theorem C4_policy_check_amended config r w res r' w' :
  policy_ref_invalid r ->
  CreateIPAMReservation config r w = (res, r', w') ->
  (forall e, res <> Ok e) /\ (forall p, res <> Panic p) /\
  (WorkspaceURL r <> "" -> res = Err PolicyRequiredMessage /\ w' = w) /\
  (WorkspaceURL r = "" ->
   trace w' = (trace w ++ [mkRequest "GET" (defaultWorkspaceURL config) None])%list /\
   ((exists u, fst (findWorkspaceURLOrDefault config "" w) = Ok u) -> res = Err PolicyRequiredMessage) /\
   (forall e, fst (findWorkspaceURLOrDefault config "" w) = Err e -> res = Err e)).
Proof.
  intros Hinv H; unfold CreateIPAMReservation in H.
  destruct (string_dec (WorkspaceURL r) "") as [E | E].
  - rewrite E in H.
    destruct (findWorkspaceURLOrDefault config "" w) as [wr w1] eqn:F.
    pose proof F as F'.
    apply findWorkspace_default in F as [Ht Hnp].
    destruct wr as [u | e | p |].
    + rewrite (policy_check_rejects r u) in H by exact Hinv.
      injection H as <- <- <-.
      refine (conj _ (conj _ (conj _ _))); intros; try discriminate; [contradiction |].
      refine (conj Ht (conj _ _)); [intros _; reflexivity | intros e He; discriminate He].
    + injection H as <- <- <-.
      refine (conj _ (conj _ (conj _ _))); intros; try discriminate; [contradiction |].
      refine (conj Ht (conj _ _)); [intros (u & Hu); discriminate Hu | intros e' He; injection He as ->; reflexivity].
    + destruct (Hnp p eq_refl).
    + injection H as <- <- <-.
      refine (conj _ (conj _ (conj _ _))); intros; try discriminate; [contradiction |].
      refine (conj Ht (conj _ _)); [intros (u & Hu); discriminate Hu | intros e' He; discriminate He].
  - rewrite findWorkspace_given in H by exact E.
    rewrite (policy_check_rejects r _) in H by exact Hinv.
    injection H as <- <- <-.
    refine (conj _ (conj _ (conj _ _))); intros; try discriminate; [| contradiction].
    split; reflexivity.
Qed.

Lemma C4_policy_check_amended_witness :
  policy_ref_invalid ex_record_both /\
  CreateIPAMReservation ex_config ex_record_both (mkWorld 0 [] [])
  = (Err PolicyRequiredMessage, ex_record_both, mkWorld 0 [] []) /\
  (@Err IPAMReservation PolicyRequiredMessage = Err PolicyRequiredMessage /\ mkWorld 0 [] [] = mkWorld 0 [] []).
Proof.
  assert (Hi : policy_ref_invalid ex_record_both) by (right; split; discriminate).
  assert (Hc : CreateIPAMReservation ex_config ex_record_both (mkWorld 0 [] [])
               = (Err PolicyRequiredMessage, ex_record_both, mkWorld 0 [] []))
    by (vm_compute; reflexivity).
  split; [exact Hi | split; [exact Hc |]].
  exact (proj1 (proj2 (proj2 (C4_policy_check_amended ex_config ex_record_both (mkWorld 0 [] [])
                                _ _ _ Hi Hc))) ltac:(discriminate)).
Defined.

(** C5 (code_bug): the policy id is translated with the workspace
    resource type: for policy id 42 the submitted reservation carries
    [.../workspaces/42/], not the policy item URL. *)
Lemma C5_policy_url_is_workspace_url :
  let '(_, r', w') := CreateIPAMReservation ex_config ex_record
                        (ex_world_create [ex_job "Successful" None]) in
  In (buildPostRequest ex_config IPAMReservationResourceType r') (trace w') /\
  body (buildPostRequest ex_config IPAMReservationResourceType r') = Some r' /\
  Policy r' = ex_policy_url_sent /\
  Policy r' = itemURL ex_config WorkspaceResourceType 42 /\
  Policy r' <> itemURL ex_config ModulePolicyResourceType 42 /\
  Policy r' <> itemURL ex_config IPAMPolicyResourceType 42.
Proof.
  vm_compute.
  split; [left; reflexivity |].
  repeat split; discriminate.
Qed.

(** C6 (code_bug): when the lookup of the "Default" workspace returns an
    empty list, [findDefaultWorkspaceID] wraps a nil error
    ([errors.WithMessage(clientErr, ...)] with [clientErr] nil) and so
    returns the id "" without error; the create operation then fails on
    [strconv.Atoi("")], not with the not-found error. No mutating call is
    issued. *)
Lemma C6_missing_default_workspace_error :
  findDefaultWorkspaceID ex_config (mkWorld 0 [] [ok_reply (PWorkspaces [])])
  = (Ok "", mkWorld 0 [mkRequest "GET" (defaultWorkspaceURL ex_config) None] []) /\
  let '(res, _, w') := CreateIPAMReservation ex_config ex_record_no_workspace
                         (mkWorld 0 [] [ok_reply (PWorkspaces [])]) in
  res = Err ("athena.apiClient: Failed to convert Workspace ID '' to integer: strconv.Atoi: parsing "
             ++ dq ++ dq ++ ": invalid syntax") /\
  (forall e, res = Err e -> Contains e "Failed to find default workspace" = false) /\
  trace w' = [mkRequest "GET" (defaultWorkspaceURL ex_config) None].
Proof.
  split; [vm_compute; reflexivity |].
  vm_compute.
  split; [reflexivity |].
  split; [intros e He; injection He as <-; vm_compute; reflexivity | reflexivity].
Qed.

Lemma pure_asString (v : Value) : pure (@asString World v).
Proof. intro w; destruct v; reflexivity. Qed.
Lemma pure_asInt (v : Value) : pure (@asInt World v).
Proof. intro w; destruct v; reflexivity. Qed.
Lemma pure_asList (v : Value) : pure (@asList World v).
Proof. intro w; destruct v; reflexivity. Qed.
Lemma pure_asMap (v : Value) : pure (@asMap World v).
Proof. intro w; destruct v; reflexivity. Qed.

Lemma quiet_bind {A B} (m : M A) (k : A -> M B) :
  pure m -> (forall a, quiet (k a)) -> quiet (bind m k).
Proof.
  intros Hm Hk w. specialize (Hm w). unfold bind.
  destruct (m w) as [[a| e | p |] w1] eqn:E; simpl in Hm; subst w1;
    try (split; [reflexivity | intros b Hb; discriminate]).
  apply Hk.
Qed.

Lemma quiet_fail {A} (e : string) : quiet (@fail World A e).
Proof. intro w; split; [reflexivity | intros a Ha; discriminate]. Qed.

Lemma UpdateIPAMReservation_not_implemented (id : Z) (r : IPAMReservation) (w : World) :
  UpdateIPAMReservation id r w = (Err NotImplementedMessage, w).
Proof. reflexivity. Qed.

Lemma update_call_quiet (d : ResourceData) : quiet (update_call d).
Proof.
  unfold update_call.
  repeat (apply quiet_bind;
          [first [apply pure_asString | apply pure_asInt | apply pure_asList | apply pure_asMap]
          | intro]).
  destruct (Atoi (rd_Id d)) as [n [e|]]; apply quiet_fail.
Qed.

Lemma update_changed_false (d : ResourceData) :
  (forall f, In f tracked_fields -> HasChange d f = false) -> update_changed d = false.
Proof.
  intro H. unfold update_changed.
  repeat rewrite H by (simpl; tauto). reflexivity.
Qed.

Lemma update_changed_true (d : ResourceData) (f : string) :
  In f tracked_fields -> HasChange d f = true -> update_changed d = true.
Proof.
  intros Hin Hc. unfold update_changed.
  simpl in Hin; repeat destruct Hin as [<- | Hin]; try contradiction;
    rewrite Hc; rewrite ?orb_true_r; simpl; rewrite ?orb_true_r; reflexivity.
Qed.

(** C7 (corrected, counterexample): [dns_search_suffix] is a schema
    attribute of the reservation, but a change to it alone is not
    detected: the update entry point returns success without contacting
    the service, as when nothing changed. *)
Lemma C7_dns_search_suffix_not_tracked :
  In "dns_search_suffix" schema_fields /\
  HasChange ex_rd_suffix_change "dns_search_suffix" = true /\
  resourceIPAMReservationUpdate ex_rd_suffix_change (mkWorld 0 [] [])
  = (Ok tt, ex_rd_suffix_change, mkWorld 0 [] []) /\
  ~ In "dns_search_suffix" tracked_fields.
Proof.
  split; [simpl; tauto |].
  split; [vm_compute; reflexivity |].
  split; [vm_compute; reflexivity |].
  simpl; intuition discriminate.
Qed.

(** C7 (corrected, amended): [UpdateIPAMReservation] reports "not
    implemented" for every id and record; the update entry point returns
    success with the state and the world unchanged when none of the
    fourteen tracked fields changed (every schema field except
    [dns_search_suffix]); when one of them changed it fails, still
    without touching the world. *)
Theorem C7_update_amended :
  (forall id r w, UpdateIPAMReservation id r w = (Err NotImplementedMessage, w)) /\
  (forall f, In f tracked_fields <-> In f schema_fields /\ f <> "dns_search_suffix") /\
  (forall d w, (forall f, In f tracked_fields -> HasChange d f = false) ->
     resourceIPAMReservationUpdate d w = (Ok tt, d, w)) /\
  (forall d w f, In f tracked_fields -> HasChange d f = true ->
     exists res, resourceIPAMReservationUpdate d w = (res, d, w) /\ res <> Ok tt).
Proof.
  refine (conj UpdateIPAMReservation_not_implemented (conj _ (conj _ _))).
  - intro f; simpl; split.
    + intro H; split; [tauto |].
      repeat destruct H as [<- | H]; try contradiction; discriminate.
    + intros [H Hne]. repeat destruct H as [<- | H]; try contradiction; tauto.
  - intros d w H. unfold resourceIPAMReservationUpdate.
    rewrite (update_changed_false d H). reflexivity.
  - intros d w f Hin Hc. unfold resourceIPAMReservationUpdate.
    rewrite (update_changed_true d f Hin Hc). cbn [negb].
    destruct (update_call_quiet d w) as [Hw Hn].
    destruct (update_call d w) as [[a | e | p |] w1]; simpl in Hw, Hn; subst w1.
    + exfalso; exact (Hn a eq_refl).
    + exists (Err e); split; [reflexivity | discriminate].
    + exists (Panic p); split; [reflexivity | discriminate].
    + exists Stuck; split; [reflexivity | discriminate].
Qed.

(** Witness of C7: a change of the search suffixes alone leaves every
    tracked field unchanged, and the amended statement then gives a
    silent success. *)
Lemma C7_update_amended_witness :
  (forall f, In f tracked_fields -> HasChange ex_rd_suffix_change f = false) /\
  resourceIPAMReservationUpdate ex_rd_suffix_change (mkWorld 0 [] [])
  = (Ok tt, ex_rd_suffix_change, mkWorld 0 [] []).
Proof.
  assert (H : forall f, In f tracked_fields -> HasChange ex_rd_suffix_change f = false).
  { intros f Hf; simpl in Hf; repeat destruct Hf as [<- | Hf]; try contradiction;
      vm_compute; reflexivity. }
  split; [exact H |].
  exact (proj1 (proj2 (proj2 C7_update_amended)) ex_rd_suffix_change (mkWorld 0 [] []) H).
Defined.

Lemma set_or_eq (k : string) (v : Value) (msg : string) (next : ST ResourceData unit)
    (d : ResourceData) :
  set_or k v msg next d = next (snd (dSet k v d)).
Proof. reflexivity. Qed.

Lemma Split_length_pos (s : string) : (1 <= length (Split s))%nat.
Proof.
  unfold Split. generalize "".
  induction s as [| c s IH]; intro cur; simpl; [lia |].
  destruct (Ascii.eqb c "/"); simpl; [lia | apply IH].
Qed.

Lemma bind_record_links (r : IPAMReservation) (d : ResourceData) (l : ReservationLinks) :
  Links r = Some l ->
  exists d1, bindIPAMReservationResource r d
    = (let sp := Split (Href (rl_Policy l)) in
       bind (index sp (Z.of_nat (length sp) - 2))
         (fun seg => let (n, _) := Atoi seg in
                     set_or "policy_id" (VInt n) "Cannot set policy" (ret tt))) d1.
Proof.
  intro Hl. unfold bindIPAMReservationResource.
  rewrite set_or_eq. unfold bind at 1, deref. rewrite Hl.
  unfold ret at 1. cbn beta iota. rewrite !set_or_eq. eexists. reflexivity.
Qed.

(** C9: binding a reservation back into the resource data panics when the
    links block is absent (nil dereference) or the policy href has fewer
    than two '/'-separated segments, in particular when it is empty
    (index out of range); otherwise it succeeds and [policy_id] is the
    [strconv.Atoi] value of the second-to-last segment, which is 0 when
    that segment is not a number. *)
Theorem C9_bind_requires_links_and_policy_href :
  forall (r : IPAMReservation) (d : ResourceData),
    (Links r = None -> fst (bindIPAMReservationResource r d) = Panic nil_deref) /\
    (forall l, Links r = Some l -> Href (rl_Policy l) = "" ->
       fst (bindIPAMReservationResource r d) = Panic index_out_of_range) /\
    (forall l, Links r = Some l -> (length (Split (Href (rl_Policy l))) < 2)%nat ->
       fst (bindIPAMReservationResource r d) = Panic index_out_of_range) /\
    (forall l, Links r = Some l -> (2 <= length (Split (Href (rl_Policy l))))%nat ->
       let sp := Split (Href (rl_Policy l)) in
       let seg := nth (length sp - 2) sp "" in
       fst (bindIPAMReservationResource r d) = Ok tt /\
       new_state (snd (bindIPAMReservationResource r d)) "policy_id" = VInt (fst (Atoi seg)) /\
       (parse_signed seg = None ->
          new_state (snd (bindIPAMReservationResource r d)) "policy_id" = VInt 0)).
Proof.
  intros r d.
  assert (Hshort : forall l, Links r = Some l -> (length (Split (Href (rl_Policy l))) < 2)%nat ->
            fst (bindIPAMReservationResource r d) = Panic index_out_of_range).
  { intros l Hl Hlen. destruct (bind_record_links r d l Hl) as [d1 ->].
    cbv zeta. unfold bind at 1, index.
    pose proof (Split_length_pos (Href (rl_Policy l))).
    replace ((0 <=? Z.of_nat (length (Split (Href (rl_Policy l)))) - 2) && _) with false
      by (symmetry; apply andb_false_intro1; apply Z.leb_gt; lia).
    reflexivity. }
  assert (Hlong : forall l, Links r = Some l -> (2 <= length (Split (Href (rl_Policy l))))%nat ->
            let sp := Split (Href (rl_Policy l)) in
            let seg := nth (length sp - 2) sp "" in
            fst (bindIPAMReservationResource r d) = Ok tt
            /\ new_state (snd (bindIPAMReservationResource r d)) "policy_id" = VInt (fst (Atoi seg))).
  { intros l Hl Hlen sp seg. destruct (bind_record_links r d l Hl) as [d1 Hb].
    assert (E : bindIPAMReservationResource r d
                = (Ok tt, snd (dSet "policy_id" (VInt (fst (Atoi seg))) d1))).
    { rewrite Hb. cbv zeta. unfold bind at 1, index.
      replace ((0 <=? Z.of_nat (length (Split (Href (rl_Policy l)))) - 2) && _) with true
        by (symmetry; apply andb_true_intro; split; [apply Z.leb_le | apply Z.ltb_lt]; lia).
      replace (Z.to_nat (Z.of_nat (length (Split (Href (rl_Policy l)))) - 2))
        with (length (Split (Href (rl_Policy l))) - 2)%nat by lia.
      fold sp. fold seg. unfold ret at 1. cbn beta iota.
      destruct (Atoi seg) as [n e]. reflexivity. }
    rewrite E. split; reflexivity. }
  refine (conj _ (conj _ (conj Hshort _))).
  - intro Hn. unfold bindIPAMReservationResource. rewrite set_or_eq.
    unfold bind at 1, deref. rewrite Hn. reflexivity.
  - intros l Hl He. apply (Hshort l Hl). rewrite He. simpl. lia.
  - intros l Hl Hlen sp seg. destruct (Hlong l Hl Hlen) as [Hb Hp]. fold sp seg in Hb, Hp.
    split; [exact Hb |]. split; [exact Hp |].
    intro Hs. rewrite Hp. unfold Atoi. rewrite Hs. reflexivity.
Qed.

(** Witness of C9: a record without links panics; a policy href whose
    second-to-last segment is "default" binds with policy id 0. *)
Lemma C9_bind_requires_links_and_policy_href_witness :
  fst (bindIPAMReservationResource ex_record ex_rd_suffix_change) = Panic nil_deref /\
  fst (bindIPAMReservationResource ex_created_named_policy ex_rd_suffix_change) = Ok tt /\
  new_state (snd (bindIPAMReservationResource ex_created_named_policy ex_rd_suffix_change))
    "policy_id" = VInt 0.
Proof.
  split.
  - exact (proj1 (C9_bind_requires_links_and_policy_href ex_record ex_rd_suffix_change) eq_refl).
  - destruct (proj2 (proj2 (proj2 (C9_bind_requires_links_and_policy_href
                 ex_created_named_policy ex_rd_suffix_change)))
               (ex_reservation_links "/api/v3/onefuse/modulePolicies/default/") eq_refl
               ltac:(vm_compute; lia)) as [Hok [_ Hz]].
    split; [exact Hok | apply Hz; vm_compute; reflexivity].
Defined.

Lemma ltg_doRequest {A} rq (k : HttpOutcome -> M A) :
  (forall o, only_gets (k o)) -> logs_then_gets rq (bind (doRequest rq) k).
Proof.
  intros Hk w; unfold bind, doRequest.
  destruct (script w) as [| r rest]; simpl.
  - exists []; split; [reflexivity | constructor].
  - destruct (Hk (outcome r) (mkWorld (clock w + duration r) (trace w ++ [rq]) rest)) as [l [E F]].
    exists l; rewrite E; simpl; rewrite <- app_assoc; split; [reflexivity | exact F].
Qed.

Lemma ltg_bind {A B} rq (m : M A) (k : A -> M B) :
  logs_then_gets rq m -> (forall a, only_gets (k a)) -> logs_then_gets rq (bind m k).
Proof.
  intros Hm Hk w; unfold bind.
  destruct (Hm w) as [l1 [E1 F1]].
  destruct (m w) as [r w'] eqn:Em; simpl in E1.
  destruct r as [a | e | p |]; try (exists l1; split; assumption).
  destruct (Hk a w') as [l2 [E2 F2]].
  exists (l1 ++ l2)%list; split.
  - rewrite E2, E1, <- app_assoc; reflexivity.
  - apply Forall_app; split; assumption.
Qed.

Lemma og_readRequestBody {A} req (k : M A) : only_gets k -> only_gets (readRequestBody req k).
Proof. intro H; unfold readRequestBody; destruct (body req); [exact H | apply og_panic]. Qed.

Lemma ltg_handleAsyncRequest req config verb : logs_then_gets req (handleAsyncRequest req config verb).
Proof.
  unfold handleAsyncRequest. apply ltg_doRequest. intro o.
  destruct o as [m | st b]; [apply og_readRequestBody, og_fail |].
  destruct (checkForErrors st b); [apply og_readRequestBody, og_fail |].
  destruct (decodeJobPtr b) as [[submitted |] |]; [| apply og_panic | apply og_fail].
  apply og_bind; [apply og_waitForJob | intros [j |]; og_tac].
Qed.

Lemma ltg_handleAsyncRequestAndFetch req config verb :
  logs_then_gets req (handleAsyncRequestAndFetchManagdObject req config verb).
Proof.
  unfold handleAsyncRequestAndFetchManagdObject.
  apply ltg_bind; [apply ltg_handleAsyncRequest | intro j].
  destruct (js_Links j); [| apply og_panic].
  apply og_bind; [apply og_doGet | intro; apply og_ret].
Qed.

Lemma Forall_gets_create config r l : Forall is_get l -> Forall (create_request config r) l.
Proof. intro F; eapply Forall_impl; [| exact F]; intros a Ha; left; exact Ha. Qed.

(** C10: the create operation updates the caller's record in place: the
    record it leaves behind differs from the input only in the workspace
    URL and the policy URL. When the workspace is resolved, the workspace
    URL is the resolved one and, for a policy id without a policy URL, the
    policy URL is the one translated from the id (otherwise unchanged); on
    a failed lookup the workspace URL is cleared. The only non-GET request
    is the submission of the updated record. *)
Theorem C10_create_mutates_record_in_place :
  forall config r w res r' w',
    CreateIPAMReservation config r w = (res, r', w') ->
    r' = set_Policy (Policy r') (set_WorkspaceURL (WorkspaceURL r') r) /\
    (forall u w1, findWorkspaceURLOrDefault config (WorkspaceURL r) w = (Ok u, w1) ->
       WorkspaceURL r' = u /\
       Policy r' = (if String.eqb (Policy r) "" && negb (PolicyID r =? 0)
                    then itemURL config WorkspaceResourceType (PolicyID r) else Policy r)) /\
    (forall e w1, findWorkspaceURLOrDefault config (WorkspaceURL r) w = (Err e, w1) ->
       r' = set_WorkspaceURL "" r) /\
    exists l, trace w' = (trace w ++ l)%list /\ Forall (create_request config r') l.
Proof.
  intros config r w res r' w' H. unfold CreateIPAMReservation in H.
  destruct (og_findWorkspaceURLOrDefault config (WorkspaceURL r) w) as [l1 [E1 F1]].
  destruct (findWorkspaceURLOrDefault config (WorkspaceURL r) w) as [wr w1] eqn:Ef.
  simpl in E1.
  destruct wr as [u | e | p |].
  - cbn [Policy PolicyID set_WorkspaceURL] in H.
    destruct (String.eqb (Policy r) "") eqn:Ep; cbn [andb];
      [destruct (PolicyID r =? 0) eqn:Ei; cbn [negb] in H |- *|].
    + injection H as <- <- <-.
      refine (conj eq_refl (conj _ (conj _ _))).
      * intros u' w1' Hf; injection Hf as <- <-; split; reflexivity.
      * intros e' w1' Hf; discriminate Hf.
      * exists l1; split; [exact E1 | apply Forall_gets_create; exact F1].
    + set (r2 := set_Policy (itemURL config WorkspaceResourceType (PolicyID r)) (set_WorkspaceURL u r)) in *.
      set (req := buildPostRequest config IPAMReservationResourceType r2) in *.
      destruct (ltg_handleAsyncRequestAndFetch req config "POST" w1) as [l2 [E2 F2]].
      assert (Hr : r' = r2 /\ trace w' = trace (snd (handleAsyncRequestAndFetchManagdObject req config "POST" w1))).
      { destruct (handleAsyncRequestAndFetchManagdObject req config "POST" w1) as [[[j x] | e | p |] w2];
          injection H as _ <- <-; split; reflexivity. }
      destruct Hr as [-> Ht].
      refine (conj eq_refl (conj _ (conj _ _))).
      * intros u' w1' Hf; injection Hf as <- <-; split; reflexivity.
      * intros e' w1' Hf; discriminate Hf.
      * exists (l1 ++ req :: l2)%list; split.
        -- rewrite Ht, E2, E1, <- app_assoc; reflexivity.
        -- apply Forall_app; split; [apply Forall_gets_create; exact F1 |].
           constructor; [right; reflexivity | apply Forall_gets_create; exact F2].
    + injection H as <- <- <-.
      refine (conj eq_refl (conj _ (conj _ _))).
      * intros u' w1' Hf; injection Hf as <- <-; split; reflexivity.
      * intros e' w1' Hf; discriminate Hf.
      * exists l1; split; [exact E1 | apply Forall_gets_create; exact F1].
  - injection H as <- <- <-.
    refine (conj eq_refl (conj _ (conj _ _))).
    + intros u' w1' Hf; discriminate Hf.
    + intros e' w1' Hf; reflexivity.
    + exists l1; split; [exact E1 | apply Forall_gets_create; exact F1].
  - injection H as <- <- <-.
    refine (conj _ (conj _ (conj _ _))).
    + destruct r; reflexivity.
    + intros u' w1' Hf; discriminate Hf.
    + intros e' w1' Hf; discriminate Hf.
    + exists l1; split; [exact E1 | apply Forall_gets_create; exact F1].
  - injection H as <- <- <-.
    refine (conj _ (conj _ (conj _ _))).
    + destruct r; reflexivity.
    + intros u' w1' Hf; discriminate Hf.
    + intros e' w1' Hf; discriminate Hf.
    + exists l1; split; [exact E1 | apply Forall_gets_create; exact F1].
Qed.

(** Witness of C10: the record of the example create keeps its workspace
    URL and receives the policy URL translated from policy id 42. *)
Lemma C10_create_mutates_record_in_place_witness :
  exists res r' w',
    CreateIPAMReservation ex_config ex_record (ex_world_create [ex_job "Successful" None])
    = (res, r', w') /\
    WorkspaceURL r' = ex_workspace_url /\ Policy r' = ex_policy_url_sent /\
    r' = set_Policy ex_policy_url_sent ex_record.
Proof.
  destruct (CreateIPAMReservation ex_config ex_record (ex_world_create [ex_job "Successful" None]))
    as [[res r'] w'] eqn:E.
  exists res, r', w'; split; [reflexivity |].
  destruct (C10_create_mutates_record_in_place ex_config ex_record _ res r' w' E)
    as [Hf [Hu _]].
  destruct (Hu ex_workspace_url (ex_world_create [ex_job "Successful" None])
              ltac:(vm_compute; reflexivity)) as [H1 H2].
  assert (H3 : Policy r' = ex_policy_url_sent) by (rewrite H2; vm_compute; reflexivity).
  split; [exact H1 | split; [exact H3 |]].
  rewrite Hf, H1, H3; reflexivity.
Defined.

(** ** Decimal conversions *)

Lemma digit_char_ok (d : Z) :
  0 <= d < 10 ->
  is_digit (digit_char d) = true /\ Z.of_nat (nat_of_ascii (digit_char d) - 48) = d.
Proof.
  intro H.
  assert (E : d = 0 \/ d = 1 \/ d = 2 \/ d = 3 \/ d = 4 \/ d = 5 \/ d = 6 \/ d = 7 \/ d = 8 \/ d = 9)
    by lia.
  repeat destruct E as [-> | E]; try (subst d); split; reflexivity.
Qed.

Lemma parse_digits_digits_aux (f : nat) :
  forall n acc a, 0 <= n < 10 ^ Z.of_nat f ->
  exists k, 0 <= k /\ parse_digits (digits_aux f n acc) a = parse_digits acc (a * 10 ^ k + n).
Proof.
  induction f as [| f IH]; intros n acc a Hn.
  - simpl in Hn. exists 0. replace n with 0 by lia. split; [lia |].
    rewrite Z.pow_0_r, Z.mul_1_r, Z.add_0_r. reflexivity.
  - pose proof (Z.mod_pos_bound n 10 ltac:(lia)) as Hm.
    destruct (digit_char_ok (n mod 10) Hm) as [Hd Hv].
    pose proof (Z_div_mod_eq_full n 10) as Hdm.
    simpl digits_aux. destruct (n / 10 =? 0) eqn:Eq.
    + apply Z.eqb_eq in Eq. exists 1. split; [lia |].
      cbn [parse_digits]. rewrite Hd, Hv. f_equal. lia.
    + apply Z.eqb_neq in Eq.
      assert (Hq : 0 <= n / 10 < 10 ^ Z.of_nat f).
      { split; [apply Z.div_pos; lia |].
        apply Z.div_lt_upper_bound; [lia |].
        rewrite Nat2Z.inj_succ, Z.pow_succ_r in Hn by lia. lia. }
      destruct (IH (n / 10) (String (digit_char (n mod 10)) acc) a Hq) as [k [Hk E]].
      exists (k + 1). split; [lia |]. rewrite E. cbn [parse_digits]. rewrite Hd, Hv.
      f_equal. rewrite Z.pow_add_r by lia. change (10 ^ 1) with 10.
      set (p := 10 ^ k). lia.
Qed.

Lemma digits_aux_head (f : nat) :
  forall n acc, exists d rest, 0 <= d < 10 /\ digits_aux (S f) n acc = String (digit_char d) rest.
Proof.
  induction f as [| f IH]; intros n acc.
  - simpl. destruct (n / 10 =? 0);
      exists (n mod 10); eexists; (split; [apply Z.mod_pos_bound; lia | reflexivity]).
  - change (digits_aux (S (S f)) n acc) with
      (let acc' := String (digit_char (n mod 10)) acc in
       if n / 10 =? 0 then acc' else digits_aux (S f) (n / 10) acc').
    cbv zeta. destruct (n / 10 =? 0).
    + exists (n mod 10); eexists; split; [apply Z.mod_pos_bound; lia | reflexivity].
    + apply IH.
Qed.

Lemma parse_signed_digit (d : Z) (rest : string) :
  0 <= d < 10 -> parse_signed (String (digit_char d) rest) = parse_unsigned (String (digit_char d) rest).
Proof.
  intro H.
  assert (E : d = 0 \/ d = 1 \/ d = 2 \/ d = 3 \/ d = 4 \/ d = 5 \/ d = 6 \/ d = 7 \/ d = 8 \/ d = 9)
    by lia.
  repeat destruct E as [-> | E]; try (subst d); reflexivity.
Qed.

Lemma parse_unsigned_digits (n : Z) :
  0 <= n < 10 ^ 64 -> parse_unsigned (digits_aux 64 n "") = Some n.
Proof.
  intro Hn.
  destruct (digits_aux_head 63 n "") as [d [rest [Hd E]]].
  destruct (parse_digits_digits_aux 64 n "" 0 ltac:(exact Hn)) as [k [_ P]].
  unfold parse_unsigned. rewrite E. rewrite <- E, P. reflexivity.
Qed.

Lemma int_max_lt_pow : int_max + 1 < 10 ^ 64.
Proof. vm_compute. reflexivity. Qed.

Lemma Atoi_Itoa (n : Z) : int_min <= n <= int_max -> Atoi (Itoa n) = (n, None).
Proof.
  intro Hn. pose proof int_max_lt_pow as Hb.
  assert (Hmin : int_min = - (int_max + 1)) by reflexivity.
  unfold Itoa. destruct (n <? 0) eqn:Hs.
  - apply Z.ltb_lt in Hs.
    assert (Hp : parse_signed ("-" ++ digits_aux 64 (- n) "") = Some n).
    { change ("-" ++ digits_aux 64 (- n) "") with (String "-" (digits_aux 64 (- n) "")).
      unfold parse_signed. rewrite parse_unsigned_digits by lia. simpl. f_equal. lia. }
    unfold Atoi. rewrite Hp.
    replace (int_max <? n) with false by (symmetry; apply Z.ltb_ge; lia).
    replace (n <? int_min) with false by (symmetry; apply Z.ltb_ge; lia).
    reflexivity.
  - apply Z.ltb_ge in Hs.
    destruct (digits_aux_head 63 n "") as [d [rest [Hd E]]].
    assert (Hp : parse_signed (digits_aux 64 n "") = Some n).
    { rewrite E, parse_signed_digit, <- E by exact Hd. apply parse_unsigned_digits. lia. }
    unfold Atoi. rewrite Hp.
    replace (int_max <? n) with false by (symmetry; apply Z.ltb_ge; lia).
    replace (n <? int_min) with false by (symmetry; apply Z.ltb_ge; lia).
    reflexivity.
Qed.

Lemma checkForErrors_ok (st : Z) (b : Payload) : st < 400 -> checkForErrors st b = None.
Proof.
  intro H. unfold checkForErrors.
  replace (500 <=? st) with false by (symmetry; apply Z.leb_gt; lia).
  replace (400 <=? st) with false by (symmetry; apply Z.leb_gt; lia).
  reflexivity.
Qed.

Lemma checkForErrors_err (st : Z) (b : Payload) : 400 <= st -> checkForErrors st b = Some (body_string b).
Proof.
  intro H. unfold checkForErrors.
  destruct (500 <=? st); [reflexivity |].
  replace (400 <=? st) with true by (symmetry; apply Z.leb_le; lia).
  reflexivity.
Qed.

(** X1: with no workspace URL, the URL is the item URL of the first
    workspace the "Default" lookup returns, after exactly that GET. *)
Theorem findWorkspaceURLOrDefault_default_found (config : Config) (w : World) (dur st : Z)
    (w0 : Workspace) (ws : list Workspace) (rest : list Reply) :
  script w = mkReply dur (DoResp st (PWorkspaces (w0 :: ws))) :: rest ->
  st < 400 -> int_min <= ws_ID w0 <= int_max ->
  findWorkspaceURLOrDefault config "" w =
  (Ok (itemURL config WorkspaceResourceType (ws_ID w0)),
   mkWorld (clock w + dur) (trace w ++ [mkRequest "GET" (defaultWorkspaceURL config) None]) rest).
Proof.
  intros Hs Hst Hid.
  unfold findWorkspaceURLOrDefault, findDefaultWorkspaceID, with_message.
  cbn [String.eqb]. unfold bind, doRequest. rewrite Hs. cbn [outcome duration].
  rewrite checkForErrors_ok by exact Hst.
  unfold ret. cbn beta iota.
  rewrite Atoi_Itoa by exact Hid. reflexivity.
Qed.

Lemma str_app_assoc (a b c : string) : ((a ++ b) ++ c)%string = (a ++ (b ++ c))%string.
Proof. induction a as [| x a IH]; simpl; [reflexivity | rewrite IH; reflexivity]. Qed.

Lemma doGet_spec {A} (config : Config) (u : string) (decode : Payload -> option A) (w : World) :
  trace (snd (doGet config u decode w)) = (trace w ++ [mkRequest "GET" u None])%list /\
  (forall p, fst (doGet config u decode w) <> Panic p) /\
  (forall v, fst (doGet config u decode w) = Ok v <->
     exists dur st b rest, script w = mkReply dur (DoResp st b) :: rest /\ st < 400 /\ decode b = Some v) /\
  (forall dur st b rest, script w = mkReply dur (DoResp st b) :: rest -> 400 <= st ->
     fst (doGet config u decode w) = Err (wrap ("athena.apiClient: Request failed GET " ++ u) (body_string b))).
Proof.
  unfold doGet, bind, doRequest.
  destruct (script w) as [| [dur o] rest] eqn:Hs.
  - cbn. refine (conj eq_refl (conj _ (conj _ _))).
    + intros p H; discriminate H.
    + intro v; split; [intro H; discriminate H | intros (d' & st & b & r & H & _); discriminate H].
    + intros d' st b r H; discriminate H.
  - cbn [outcome]. destruct o as [m | st b].
    + cbn. refine (conj eq_refl (conj _ (conj _ _))).
      * intros p H; discriminate H.
      * intro v; split; [intro H; discriminate H | intros (d' & st & b & r & H & _); discriminate H].
      * intros d' st b r H; discriminate H.
    + destruct (Z_lt_le_dec st 400) as [Hlt | Hge].
      * rewrite (checkForErrors_ok st b Hlt).
        destruct (decode b) as [v |] eqn:Ed; cbn.
        -- refine (conj eq_refl (conj _ (conj _ _))).
           ++ intros p H; discriminate H.
           ++ intro v'; split.
              ** intro H; injection H as <-. exists dur, st, b, rest; auto.
              ** intros (d' & st' & b' & r & H & _ & Hd). injection H as _ <- <- _.
                 rewrite Ed in Hd; injection Hd as <-; reflexivity.
           ++ intros d' st' b' r H Hst; injection H as _ <- _ _; lia.
        -- refine (conj eq_refl (conj _ (conj _ _))).
           ++ intros p H; discriminate H.
           ++ intro v'; split; [intro H; discriminate H |].
              intros (d' & st' & b' & r & H & _ & Hd). injection H as _ <- <- _.
              rewrite Ed in Hd; discriminate Hd.
           ++ intros d' st' b' r H Hst; injection H as _ <- _ _; lia.
      * rewrite (checkForErrors_err st b Hge). cbn.
        refine (conj eq_refl (conj _ (conj _ _))).
        -- intros p H; discriminate H.
        -- intro v; split; [intro H; discriminate H |].
           intros (d' & st' & b' & r & H & Hl & _). injection H as _ <- _ _; lia.
        -- intros d' st' b' r H _. injection H as _ _ <- _. reflexivity.
Qed.

(** X2: [GetIPAMReservation] issues exactly one request, the GET of the
    item URL of the reservation; it never panics; it returns a
    reservation exactly when the reply has a status below 400 and a body
    that [json.Unmarshal] decodes into a reservation, and then it returns
    the decoded record; a status of 400 or more gives the error carrying
    the response body. *)
Theorem GetIPAMReservation_spec (config : Config) (id : Z) (w : World) :
  let u := itemURL config IPAMReservationResourceType id in
  trace (snd (GetIPAMReservation config id w)) = (trace w ++ [mkRequest "GET" u None])%list /\
  (forall p, fst (GetIPAMReservation config id w) <> Panic p) /\
  (forall r, fst (GetIPAMReservation config id w) = Ok r <->
     exists dur st b rest, script w = mkReply dur (DoResp st b) :: rest /\ st < 400 /\
                           decodeReservation b = Some r) /\
  (forall dur st b rest, script w = mkReply dur (DoResp st b) :: rest -> 400 <= st ->
     fst (GetIPAMReservation config id w)
     = Err ("athena.apiClient: Request failed GET " ++ u ++ ": " ++ body_string b)).
Proof.
  cbv zeta. unfold GetIPAMReservation.
  destruct (doGet_spec config (itemURL config IPAMReservationResourceType id) decodeReservation w)
    as [Ht [Hp [Hok He]]].
  refine (conj Ht (conj Hp (conj Hok _))).
  intros d st b rest Hs Hl. rewrite (He d st b rest Hs Hl). unfold wrap.
  rewrite str_app_assoc. reflexivity.
Qed.

Lemma doGet_nil {A} (config : Config) (u : string) (decode : Payload -> option A) (w : World) :
  script w = [] -> doGet config u decode w = (Stuck, mkWorld (clock w) (trace w ++ [mkRequest "GET" u None]) []).
Proof. intro Hs. unfold doGet, bind, doRequest. rewrite Hs. reflexivity. Qed.

Lemma doGet_cons {A} (config : Config) (u : string) (decode : Payload -> option A) (w : World) r rest :
  script w = r :: rest ->
  snd (doGet config u decode w) = mkWorld (clock w + duration r) (trace w ++ [mkRequest "GET" u None]) rest /\
  fst (doGet config u decode w) <> Stuck.
Proof.
  intro Hs. unfold doGet, bind, doRequest. rewrite Hs. cbn beta iota.
  destruct (outcome r) as [m | st b]; [split; [reflexivity | discriminate] |].
  destruct (checkForErrors st b); [split; [reflexivity | discriminate] |].
  destruct (decode b); split; (reflexivity || discriminate).
Qed.

Lemma poll_fetches (f : nat) :
  forall config id start desc last w,
  exists l, trace (snd (poll f config id start desc last w)) = (trace w ++ l)%list /\
            Forall (eq (jobGET config id)) l /\ (length l <= f)%nat.
Proof.
  induction f as [| f IH]; intros config id start desc last w.
  - exists []. rewrite app_nil_r. split; [| split; [constructor | simpl; lia]].
    simpl. destruct (negb (is_terminal desc)); reflexivity.
  - rewrite poll_S. destruct (negb (is_terminal desc)).
    2: { exists []. rewrite app_nil_r. split; [reflexivity | split; [constructor | simpl; lia]]. }
    unfold bind at 1. unfold GetJobStatus.
    destruct (script w) as [| r rest] eqn:Hs.
    + rewrite (doGet_nil config _ decodeJob w Hs).
      exists [jobGET config id]. split; [reflexivity | split; [repeat constructor | simpl; lia]].
    + destruct (doGet_cons config (itemURL config JobStatusResourceType id) decodeJob w r rest Hs)
        as [Hw _].
      destruct (doGet config (itemURL config JobStatusResourceType id) decodeJob w) as [res w1].
      cbn [snd] in Hw. subst w1.
      destruct res as [j | e | p |];
        try (exists [jobGET config id]; split; [reflexivity | split; [repeat constructor | simpl; lia]]).
      unfold bind, sleep, now. cbn beta iota.
      match goal with |- context [if ?c then _ else _] => destruct c end.
      * exists [jobGET config id]. split; [reflexivity | split; [repeat constructor | simpl; lia]].
      * match goal with |- context [poll f config id start ?d ?lj ?w2] =>
          destruct (IH config id start d lj w2) as [l [E [F L]]] end.
        exists (jobGET config id :: l). rewrite E. cbn [trace].
        split; [rewrite <- app_assoc; reflexivity | split; [constructor; [reflexivity | exact F] | simpl; lia]].
Qed.

Lemma poll_not_stuck (f : nat) :
  forall config id start desc last w,
  (f <= 721)%nat ->
  Z.of_nat (721 - f) * PollingIntervalMS <= clock w - start <= PollingTimeoutMS ->
  (f <= length (script w))%nat ->
  Forall (fun r => 0 <= duration r) (script w) ->
  fst (poll f config id start desc last w) <> Stuck.
Proof.
  unfold PollingIntervalMS, PollingTimeoutMS.
  induction f as [| f IH]; intros config id start desc last w Hf Hc Hl Hd.
  - exfalso. simpl in Hc. lia.
  - rewrite poll_S. destruct (negb (is_terminal desc)); [| discriminate].
    unfold bind at 1. unfold GetJobStatus.
    destruct (script w) as [| r rest] eqn:Hs; [simpl in Hl; lia |].
    destruct (doGet_cons config (itemURL config JobStatusResourceType id) decodeJob w r rest Hs)
      as [Hw Hns].
    destruct (doGet config (itemURL config JobStatusResourceType id) decodeJob w) as [res w1].
    cbn [snd fst] in Hw, Hns. subst w1.
    destruct res as [j | e | p |]; try discriminate; [| exfalso; apply Hns; reflexivity].
    unfold bind, sleep, now. cbn beta iota.
    inversion Hd as [| r' rest' Hr Hrest]; subst.
    destruct (_ >? _) eqn:Ht; [discriminate |].
    rewrite Z.gtb_ltb in Ht. apply Z.ltb_ge in Ht. cbn [clock script trace] in Ht |- *.
    apply IH; cbn [clock script]; [lia | | simpl in Hl; lia | exact Hrest].
    unfold PollingIntervalMS, PollingTimeoutMS in *. split; [| lia].
    replace (Z.of_nat (721 - f)) with (Z.of_nat (721 - S f) + 1) by lia. lia.
Qed.

(** X3: with replies of non-negative duration, the poll loop ends after at
    most 721 status fetches (the one-hour budget over the 5-second
    interval, plus one): given 721 replies it never runs out, and every
    request it issues is the GET of the job's status URL. *)
Theorem waitForJob_bounded_fetches (id : Z) (config : Config) (w : World) :
  Forall (fun r => 0 <= duration r) (script w) ->
  ((721 <= length (script w))%nat -> fst (waitForJob id config w) <> Stuck) /\
  exists l, trace (snd (waitForJob id config w)) = (trace w ++ l)%list /\
            Forall (eq (jobGET config id)) l /\ (length l <= 721)%nat.
Proof.
  intro Hd. unfold waitForJob, bind, now. cbn beta iota. split.
  - intro Hl. apply poll_not_stuck; [unfold poll_fuel; lia | | exact Hl | exact Hd].
    unfold poll_fuel, PollingIntervalMS, PollingTimeoutMS. simpl. lia.
  - apply poll_fetches.
Qed.

Lemma waitForJob_fetches (id : Z) (config : Config) (w : World) :
  exists l, trace (snd (waitForJob id config w)) = (trace w ++ l)%list /\
            Forall (eq (jobGET config id)) l.
Proof.
  unfold waitForJob, bind, now. cbn beta iota.
  destruct (poll_fetches poll_fuel config id (clock w) "" None w) as [l [E [F _]]].
  exists l; split; assumption.
Qed.

Lemma checkForJobErrors_ok_iff (j : JobStatus) :
  checkForJobErrors j = Ok tt <-> JobState j = JobSuccess.
Proof.
  unfold checkForJobErrors. destruct (String.eqb (JobState j) JobSuccess) eqn:E; cbn [negb].
  - apply String.eqb_eq in E. split; [intros _; exact E | reflexivity].
  - apply String.eqb_neq in E. split; [| intro H; contradiction].
    destruct (ErrorDetails j) as [[c [l |]] |]; cbn; discriminate.
Qed.

(** X4: a submission answered with a status of 400 or more is never
    polled: the submission is the only request. For a request with a body
    (the POST) it fails with the error carrying the response body; for a
    request built without a body (the DELETE), reading the request body
    in the error path panics. *)
Theorem handleAsyncRequest_rejected (req : Request) (config : Config) (httpVerb : string)
    (w : World) (dur st : Z) (b : Payload) (rest : list Reply) :
  script w = mkReply dur (DoResp st b) :: rest -> 400 <= st ->
  snd (handleAsyncRequest req config httpVerb w) = mkWorld (clock w + dur) (trace w ++ [req]) rest /\
  (body req = None -> fst (handleAsyncRequest req config httpVerb w) = Panic nil_deref) /\
  (forall e, body req = Some e ->
     fst (handleAsyncRequest req config httpVerb w) =
     Err (wrap ("athena.apiClient: Failed to read response body from " ++ httpVerb ++ " " ++ url req ++ " ")
               (body_string b))).
Proof.
  intros Hs Hst.
  assert (E : handleAsyncRequest req config httpVerb w =
              readRequestBody req
                (fail (wrap ("athena.apiClient: Failed to read response body from " ++ httpVerb ++ " "
                             ++ url req ++ " ") (body_string b)))
                (mkWorld (clock w + dur) (trace w ++ [req]) rest)).
  { unfold handleAsyncRequest, bind at 1, doRequest. rewrite Hs.
    cbn [outcome duration]. rewrite checkForErrors_err by exact Hst. reflexivity. }
  rewrite E. unfold readRequestBody.
  destruct (body req) as [e0 |].
  - refine (conj eq_refl (conj _ _)); [intro H; discriminate H | intros e _; reflexivity].
  - refine (conj eq_refl (conj _ _)); [intros _; reflexivity | intros e H; discriminate H].
Qed.

(** X15: [DeleteIPAMReservation] panics when the DELETE fails in
    transport or is answered with a status of 400 or more (for example a
    reservation already gone), after issuing only the DELETE: the
    request has no body, and the error path reads it. *)
Theorem DeleteIPAMReservation_rejected_panics (config : Config) (id : Z) (w : World) (r : Reply)
    (rest : list Reply) :
  script w = r :: rest ->
  (forall st b, outcome r = DoResp st b -> 400 <= st) ->
  DeleteIPAMReservation config id w =
  (Panic nil_deref,
   mkWorld (clock w + duration r)
     (trace w ++ [mkRequest "DELETE" (itemURL config IPAMReservationResourceType id) None]) rest).
Proof.
  intros Hs Hr. unfold DeleteIPAMReservation, handleAsyncRequest, bind, doRequest. rewrite Hs.
  destruct (outcome r) as [m | st b] eqn:Eo.
  - reflexivity.
  - rewrite (checkForErrors_err st b (Hr st b eq_refl)). reflexivity.
Qed.

Lemma handleAsyncRequest_accepted (req : Request) (config : Config) (httpVerb : string)
    (w : World) (dur st : Z) (j0 : JobStatus) (rest : list Reply) :
  script w = mkReply dur (DoResp st (PJob j0)) :: rest -> st < 400 ->
  handleAsyncRequest req config httpVerb w =
  bind (waitForJob (js_ID j0) config)
    (fun js => match js with
               | None => panic nil_deref
               | Some j => _ <- lift (checkForJobErrors j) ;; ret j
               end)
    (mkWorld (clock w + dur) (trace w ++ [req]) rest).
Proof.
  intros Hs Hst. unfold handleAsyncRequest, bind at 1, doRequest. rewrite Hs.
  cbn [outcome duration]. rewrite checkForErrors_ok by exact Hst. reflexivity.
Qed.

(** X5: [DeleteIPAMReservation] first issues the DELETE of the item URL
    of the reservation; once the deletion job is accepted, every further
    request is a GET of that job's status, and the deletion succeeds
    exactly when the poll loop returns a "Successful" job. *)
Theorem DeleteIPAMReservation_spec (config : Config) (id : Z) (w : World) (dur st : Z)
    (j0 : JobStatus) (rest : list Reply) :
  script w = mkReply dur (DoResp st (PJob j0)) :: rest -> st < 400 ->
  let del := mkRequest "DELETE" (itemURL config IPAMReservationResourceType id) None in
  let w1 := mkWorld (clock w + dur) (trace w ++ [del]) rest in
  (exists l, trace (snd (DeleteIPAMReservation config id w)) = (trace w ++ del :: l)%list /\
             Forall (eq (jobGET config (js_ID j0))) l) /\
  (fst (DeleteIPAMReservation config id w) = Ok tt <->
   exists j w2, waitForJob (js_ID j0) config w1 = (Ok (Some j), w2) /\ JobState j = JobSuccess).
Proof.
  intros Hs Hst del w1.
  assert (D : DeleteIPAMReservation config id w =
              match handleAsyncRequest del config "DELETE" w with
              | (Ok _, s) => (Ok tt, s) | (Err e, s) => (Err e, s)
              | (Panic p, s) => (Panic p, s) | (Stuck, s) => (Stuck, s)
              end) by reflexivity.
  rewrite D, (handleAsyncRequest_accepted del config "DELETE" w dur st j0 rest Hs Hst). fold w1.
  destruct (waitForJob_fetches (js_ID j0) config w1) as [l [E F]].
  unfold bind.
  destruct (waitForJob (js_ID j0) config w1) as [[[j |] | e | p |] w2] eqn:Ew;
    cbn [snd] in E;
    (assert (Tr : trace w2 = (trace w ++ del :: l)%list)
       by (rewrite E; cbn [trace w1]; rewrite <- app_assoc; reflexivity)).
  - unfold bind, lift, ret. cbn beta iota.
    destruct (checkForJobErrors j) as [[] | e | p |] eqn:Ec; cbn [fst snd].
    + split; [exists l; split; [exact Tr | exact F] |].
      split; [intros _; exists j, w2; split; [reflexivity | apply checkForJobErrors_ok_iff; exact Ec]
             | reflexivity].
    + split; [exists l; split; [exact Tr | exact F] |].
      split; [intro H; discriminate H |].
      intros (j' & w2' & H & Hj). injection H as <- <-.
      apply checkForJobErrors_ok_iff in Hj. rewrite Ec in Hj. discriminate Hj.
    + split; [exists l; split; [exact Tr | exact F] |].
      split; [intro H; discriminate H |].
      intros (j' & w2' & H & Hj). injection H as <- <-.
      apply checkForJobErrors_ok_iff in Hj. rewrite Ec in Hj. discriminate Hj.
    + split; [exists l; split; [exact Tr | exact F] |].
      split; [intro H; discriminate H |].
      intros (j' & w2' & H & Hj). injection H as <- <-.
      apply checkForJobErrors_ok_iff in Hj. rewrite Ec in Hj. discriminate Hj.
  - unfold panic. cbn [fst snd].
    split; [exists l; split; [exact Tr | exact F] |].
    split; [intro H; discriminate H | intros (j' & w2' & H & _); discriminate H].
  - cbn [fst snd].
    split; [exists l; split; [exact Tr | exact F] |].
    split; [intro H; discriminate H | intros (j' & w2' & H & _); discriminate H].
  - cbn [fst snd].
    split; [exists l; split; [exact Tr | exact F] |].
    split; [intro H; discriminate H | intros (j' & w2' & H & _); discriminate H].
  - cbn [fst snd].
    split; [exists l; split; [exact Tr | exact F] |].
    split; [intro H; discriminate H | intros (j' & w2' & H & _); discriminate H].
Qed.

(** ** The binding layer *)

Ltac split_typed H :=
  unfold state_well_typed, string_fields in H; cbn [forallb] in H;
  repeat rewrite andb_true_iff in H;
  repeat match goal with Hc : _ /\ _ |- _ => destruct Hc end.

Ltac case_typed :=
  repeat match goal with
  | H : is_str (Get ?d ?k) = true |- _ => destruct (Get d k); try discriminate H; clear H
  | H : is_int (Get ?d ?k) = true |- _ => destruct (Get d k); try discriminate H; clear H
  | H : is_list (Get ?d ?k) = true |- _ => destruct (Get d k); try discriminate H; clear H
  | H : is_map (Get ?d ?k) = true |- _ => destruct (Get d k); try discriminate H; clear H
  end.

Lemma create_record_ok (d : ResourceData) (w : World) :
  state_well_typed d = true -> create_record d w = (Ok (record_of_state d), w).
Proof.
  intro H. split_typed H.
  unfold create_record, record_of_state, getS, getI, getM.
  case_typed; reflexivity.
Qed.

Lemma update_call_typed (d : ResourceData) (w : World) :
  state_well_typed d = true ->
  update_call d w = (Err (match snd (Atoi (rd_Id d)) with Some e => e | None => NotImplementedMessage end), w).
Proof.
  intro H. split_typed H. unfold update_call.
  case_typed; unfold bind, asList, asString, asInt, asMap, ret; cbn beta iota;
  destruct (Atoi (rd_Id d)) as [n0 [e0 |]]; reflexivity.
Qed.

Lemma keeps_ret {A} (a : A) : keeps_id (@ret ResourceData A a).
Proof. intro d; split; reflexivity. Qed.

Lemma keeps_set_or k v msg next : keeps_id next -> keeps_id (set_or k v msg next).
Proof. intros H d. rewrite set_or_eq. destruct (H (snd (dSet k v d))) as [H1 H2]. rewrite H1, H2. split; reflexivity. Qed.

Lemma keeps_bind {A B} (m : ST ResourceData A) (k : A -> ST ResourceData B) :
  keeps_id m -> (forall a, keeps_id (k a)) -> keeps_id (bind m k).
Proof.
  intros Hm Hk d. unfold bind. destruct (Hm d) as [H1 H2].
  destruct (m d) as [[a | e | p |] d1]; cbn [snd] in *; try (split; assumption).
  destruct (Hk a d1) as [H3 H4]. rewrite H3, H4. split; assumption.
Qed.

Lemma keeps_deref {A} (p : option A) : keeps_id (@deref ResourceData A p).
Proof. intro d; destruct p; split; reflexivity. Qed.

Lemma keeps_index (l : list string) (i : Z) : keeps_id (@index ResourceData l i).
Proof. intro d; unfold index; destruct (_ && _); split; reflexivity. Qed.

Lemma bind_keeps_id (r : IPAMReservation) : keeps_id (bindIPAMReservationResource r).
Proof.
  unfold bindIPAMReservationResource.
  repeat first [ apply keeps_set_or | apply keeps_ret
               | apply keeps_bind; [first [apply keeps_deref | apply keeps_index] | intro] ].
  match goal with |- keeps_id (let (_, _) := ?x in _) => destruct x end.
  apply keeps_set_or, keeps_ret.
Qed.

Lemma bind_outcome_eq (r : IPAMReservation) (d : ResourceData) :
  fst (bindIPAMReservationResource r d) = bind_outcome r.
Proof.
  unfold bind_outcome. destruct (Links r) as [l |] eqn:Hl.
  - destruct (bind_record_links r d l Hl) as [d1 ->].
    cbv zeta. unfold bind at 1, index.
    pose proof (Split_length_pos (Href (rl_Policy l))).
    destruct (Nat.leb_spec 2 (length (Split (Href (rl_Policy l))))) as [Hle | Hlt].
    + replace ((0 <=? Z.of_nat (length (Split (Href (rl_Policy l)))) - 2) && _) with true
        by (symmetry; apply andb_true_intro; split; [apply Z.leb_le | apply Z.ltb_lt]; lia).
      unfold ret at 1. cbn beta iota.
      destruct (Atoi _). reflexivity.
    + replace ((0 <=? Z.of_nat (length (Split (Href (rl_Policy l)))) - 2) && _) with false
        by (symmetry; apply andb_false_intro1; apply Z.leb_gt; lia).
      reflexivity.
  - unfold bindIPAMReservationResource. rewrite set_or_eq.
    unfold bind at 1, deref. rewrite Hl. reflexivity.
Qed.

Lemma bind_new_state (r : IPAMReservation) (d : ResourceData) (l : ReservationLinks) :
  Links r = Some l -> (2 <= length (Split (Href (rl_Policy l))))%nat ->
  let sp := Split (Href (rl_Policy l)) in
  let seg := nth (length sp - 2) sp "" in
  forall k, new_state (snd (bindIPAMReservationResource r d)) k =
    if String.eqb k "policy_id" then VInt (fst (Atoi seg))
    else if String.eqb k "dns_suffix" then VStr (DNSSuffix r)
    else if String.eqb k "nic_label" then VStr (NicLabel r)
    else if String.eqb k "subnet" then VStr (Subnet r)
    else if String.eqb k "network" then VStr (Network r)
    else if String.eqb k "gateway" then VStr (Gateway r)
    else if String.eqb k "secondary_dns" then VStr (SecondaryDNS r)
    else if String.eqb k "primary_dns" then VStr (PrimaryDNS r)
    else if String.eqb k "netmask" then VStr (Netmask r)
    else if String.eqb k "ip_address" then VStr (IPaddress r)
    else if String.eqb k "workspace_url" then VStr (Href (rl_Workspace l))
    else if String.eqb k "computed_hostname" then VStr (Hostname r)
    else new_state d k.
Proof.
  intros Hl Hlen sp seg k.
  unfold bindIPAMReservationResource. rewrite set_or_eq.
  unfold bind at 1, deref. rewrite Hl. unfold ret at 1. cbn beta iota.
  rewrite !set_or_eq. cbv zeta. unfold bind at 1, index.
  replace ((0 <=? Z.of_nat (length (Split (Href (rl_Policy l)))) - 2) && _) with true
    by (symmetry; apply andb_true_intro; split; [apply Z.leb_le | apply Z.ltb_lt]; lia).
  replace (Z.to_nat (Z.of_nat (length (Split (Href (rl_Policy l)))) - 2))
    with (length (Split (Href (rl_Policy l))) - 2)%nat by lia.
  fold sp. fold seg. unfold ret at 1. cbn beta iota.
  destruct (Atoi seg) as [n e]. rewrite set_or_eq. reflexivity.
Qed.

(** X6: binding a reservation whose links are present and whose policy
    href has at least two segments writes the computed hostname, the
    workspace href, the addresses, the DNS and NIC attributes from the
    record and the policy id parsed from the next-to-last segment of the
    policy href, leaves every other attribute (among them [hostname],
    [dns_search_suffix] and [template_properties]) as it was, and never
    changes the resource Id or the prior state. *)
Theorem bindIPAMReservationResource_writes (r : IPAMReservation) (d : ResourceData)
    (l : ReservationLinks) :
  Links r = Some l -> (2 <= length (Split (Href (rl_Policy l))))%nat ->
  let d' := snd (bindIPAMReservationResource r d) in
  rd_Id d' = rd_Id d /\ old_state d' = old_state d /\
  new_state d' "computed_hostname" = VStr (Hostname r) /\
  new_state d' "workspace_url" = VStr (Href (rl_Workspace l)) /\
  new_state d' "ip_address" = VStr (IPaddress r) /\
  new_state d' "netmask" = VStr (Netmask r) /\
  new_state d' "primary_dns" = VStr (PrimaryDNS r) /\
  new_state d' "secondary_dns" = VStr (SecondaryDNS r) /\
  new_state d' "gateway" = VStr (Gateway r) /\
  new_state d' "network" = VStr (Network r) /\
  new_state d' "subnet" = VStr (Subnet r) /\
  new_state d' "nic_label" = VStr (NicLabel r) /\
  new_state d' "dns_suffix" = VStr (DNSSuffix r) /\
  new_state d' "policy_id" =
    VInt (fst (Atoi (nth (length (Split (Href (rl_Policy l))) - 2) (Split (Href (rl_Policy l))) ""))) /\
  (forall k, ~ In k bound_fields -> new_state d' k = new_state d k).
Proof.
  intros Hl Hlen d'.
  pose proof (bind_new_state r d l Hl Hlen) as E. cbv zeta in E.
  destruct (bind_keeps_id r d) as [I1 I2].
  refine (conj I1 (conj I2 _)).
  unfold d'. rewrite !E.
  repeat split; try reflexivity.
  intros k Hk. rewrite E.
  repeat match goal with
  | |- context [String.eqb k ?key] =>
      rewrite (proj2 (String.eqb_neq k key)) by (intro; subst; apply Hk; simpl; tauto)
  end.
  reflexivity.
Qed.

(** ** The resource operations *)

Lemma create_record_pure (d : ResourceData) (w : World) : snd (create_record d w) = w.
Proof.
  unfold create_record, bind, asList, asString, asInt, asMap, ret, panic.
  repeat match goal with |- context [match Get d ?k with _ => _ end] => destruct (Get d k) end;
  reflexivity.
Qed.

(** X7: none of Read, Update and Delete ever changes the resource Id or
    the prior state; Delete returns the resource data it was given. *)
Theorem resource_ops_keep_id (d : ResourceData) (config : Config) (w : World) :
  rd_Id (snd (fst (resourceIPAMReservationRead d config w))) = rd_Id d /\
  old_state (snd (fst (resourceIPAMReservationRead d config w))) = old_state d /\
  rd_Id (snd (fst (resourceIPAMReservationUpdate d w))) = rd_Id d /\
  old_state (snd (fst (resourceIPAMReservationUpdate d w))) = old_state d /\
  snd (fst (resourceIPAMReservationDelete d config w)) = d.
Proof.
  assert (R : rd_Id (snd (fst (resourceIPAMReservationRead d config w))) = rd_Id d /\
              old_state (snd (fst (resourceIPAMReservationRead d config w))) = old_state d).
  { unfold resourceIPAMReservationRead. destruct (Atoi (rd_Id d)) as [n [e |]]; [split; reflexivity |].
    destruct (GetIPAMReservation config n w) as [[ip | e | p |] w1]; try (split; reflexivity).
    destruct (bind_keeps_id ip d) as [I1 I2].
    destruct (bindIPAMReservationResource ip d) as [r d']. exact (conj I1 I2). }
  assert (U : rd_Id (snd (fst (resourceIPAMReservationUpdate d w))) = rd_Id d /\
              old_state (snd (fst (resourceIPAMReservationUpdate d w))) = old_state d).
  { unfold resourceIPAMReservationUpdate. destruct (negb (update_changed d)); [split; reflexivity |].
    destruct (update_call d w) as [[ip | e | p |] w1]; try (split; reflexivity).
    destruct (bind_keeps_id ip d) as [I1 I2].
    destruct (bindIPAMReservationResource ip d) as [r d']. exact (conj I1 I2). }
  assert (D : snd (fst (resourceIPAMReservationDelete d config w)) = d).
  { unfold resourceIPAMReservationDelete. destruct (Atoi (rd_Id d)) as [n [e |]]; [reflexivity |].
    destruct (DeleteIPAMReservation config n w). reflexivity. }
  tauto.
Qed.

(** X8: when the resource Id is not a decimal integer in the range of a
    Go int, Read and Delete return the [strconv.Atoi] error, issue no
    request and leave the resource data as it was. *)
Theorem read_delete_bad_id (d : ResourceData) (config : Config) (w : World) (e : string) :
  snd (Atoi (rd_Id d)) = Some e ->
  resourceIPAMReservationRead d config w = (Err e, d, w) /\
  resourceIPAMReservationDelete d config w = (Err e, d, w).
Proof.
  intro H. unfold resourceIPAMReservationRead, resourceIPAMReservationDelete.
  destruct (Atoi (rd_Id d)) as [n o]. cbn [snd] in H. subst o. split; reflexivity.
Qed.

(** X9: when the server rejects the GET of a resource (status 400 or
    more, e.g. a deleted reservation), Read returns the error carrying the
    response body and leaves the resource data, its Id included, as it
    was: it never marks the resource as gone. *)
Theorem read_rejected_keeps_resource (d : ResourceData) (config : Config) (w : World) (n : Z)
    (dur st : Z) (b : Payload) (rest : list Reply) :
  Atoi (rd_Id d) = (n, None) ->
  script w = mkReply dur (DoResp st b) :: rest -> 400 <= st ->
  let u := itemURL config IPAMReservationResourceType n in
  resourceIPAMReservationRead d config w =
  (Err (wrap ("athena.apiClient: Request failed GET " ++ u) (body_string b)), d,
   mkWorld (clock w + dur) (trace w ++ [mkRequest "GET" u None]) rest).
Proof.
  intros Ha Hs Hst u. unfold resourceIPAMReservationRead. rewrite Ha.
  unfold GetIPAMReservation, doGet, bind, doRequest. fold u. rewrite Hs. cbn [outcome duration].
  rewrite checkForErrors_err by exact Hst. reflexivity.
Qed.

(** X10: when the GET of the resource returns a reservation, Read issues
    that one GET and its outcome and resource data are those of binding
    the fetched reservation to the resource data. *)
Theorem read_refreshes_from_server (d : ResourceData) (config : Config) (w : World) (n : Z)
    (dur st : Z) (r : IPAMReservation) (rest : list Reply) :
  Atoi (rd_Id d) = (n, None) ->
  script w = mkReply dur (DoResp st (PReservation r)) :: rest -> st < 400 ->
  resourceIPAMReservationRead d config w =
  (bind_outcome r, snd (bindIPAMReservationResource r d),
   mkWorld (clock w + dur)
     (trace w ++ [mkRequest "GET" (itemURL config IPAMReservationResourceType n) None]) rest).
Proof.
  intros Ha Hs Hst. unfold resourceIPAMReservationRead. rewrite Ha.
  unfold GetIPAMReservation, doGet, bind at 1, doRequest. rewrite Hs. cbn [outcome duration].
  rewrite checkForErrors_ok by exact Hst. cbn [decodeReservation]. unfold ret at 1. cbn beta iota.
  rewrite <- (bind_outcome_eq r d).
  destruct (bindIPAMReservationResource r d) as [res d']. reflexivity.
Qed.

(** X11: after a successful Create, the resource Id is the decimal form of
    the ID of the reservation [CreateIPAMReservation] returned for the
    record built from the planned state, and a later Read of the resource
    issues exactly the GET of that reservation. *)
Theorem create_then_read_fetches_created (d d' : ResourceData) (config : Config) (w w' w2 : World) :
  resourceIPAMReservationCreate d config w = (Ok tt, d', w') ->
  exists rec r rec', create_record d w = (Ok rec, w) /\
    CreateIPAMReservation config rec w = (Ok r, rec', w') /\
    rd_Id d' = Itoa (ID r) /\ old_state d' = old_state d /\
    (int_min <= ID r <= int_max ->
     trace (snd (resourceIPAMReservationRead d' config w2)) =
     (trace w2 ++ [mkRequest "GET" (itemURL config IPAMReservationResourceType (ID r)) None])%list).
Proof.
  intro H. unfold resourceIPAMReservationCreate in H.
  pose proof (create_record_pure d w) as Pw.
  destruct (create_record d w) as [[rec | e | p |] w1] eqn:E1; cbn [snd] in Pw; subst w1;
    try discriminate H.
  destruct (CreateIPAMReservation config rec w) as [[[r | e | p |] rec'] w3] eqn:E2; try discriminate H.
  destruct (bind_keeps_id r (SetId (Itoa (ID r)) d)) as [I1 I2].
  destruct (bindIPAMReservationResource r (SetId (Itoa (ID r)) d)) as [res d2].
  injection H as -> <- <-. cbn [snd SetId rd_Id old_state] in I1, I2.
  exists rec, r, rec'. refine (conj eq_refl (conj E2 (conj I1 (conj I2 _)))).
  intro Hr. unfold resourceIPAMReservationRead. rewrite I1, (Atoi_Itoa _ Hr).
  destruct (doGet_spec config (itemURL config IPAMReservationResourceType (ID r)) decodeReservation w2)
    as [Ht _].
  unfold GetIPAMReservation in *.
  destruct (doGet config (itemURL config IPAMReservationResourceType (ID r)) decodeReservation w2)
    as [[ip | e | p |] w4]; cbn [snd] in Ht |- *;
    [destruct (bindIPAMReservationResource ip d2) | | |]; exact Ht.
Qed.

(** X12: with a policy id of 0 in the planned state, Create never
    succeeds and never submits the reservation: it only issues GETs (the
    default-workspace lookup), leaves the resource data as it was, and,
    when a workspace URL is set, returns the policy-required error
    without any request. *)
Theorem create_without_policy_id (d : ResourceData) (config : Config) (w : World) :
  state_well_typed d = true -> Get d "policy_id" = VInt 0 ->
  let '(res, d', w') := resourceIPAMReservationCreate d config w in
  d' = d /\ (forall a, res <> Ok a) /\
  (exists l, trace w' = (trace w ++ l)%list /\ Forall is_get l) /\
  (getS d "workspace_url" <> "" -> res = Err PolicyRequiredMessage /\ w' = w).
Proof.
  intros Ht Hp. unfold resourceIPAMReservationCreate. rewrite (create_record_ok d w Ht).
  assert (Hinv : policy_ref_invalid (record_of_state d)).
  { left. unfold record_of_state, getI. rewrite Hp. split; reflexivity. }
  unfold CreateIPAMReservation.
  destruct (og_findWorkspaceURLOrDefault config (WorkspaceURL (record_of_state d)) w) as [l [Tl Fl]].
  pose proof (findWorkspace_given config (WorkspaceURL (record_of_state d)) w) as Hg.
  destruct (findWorkspaceURLOrDefault config (WorkspaceURL (record_of_state d)) w)
    as [[u | e | p |] w1]; cbn [snd] in Tl.
  - rewrite (policy_check_rejects (record_of_state d) u _ _ Hinv).
    refine (conj eq_refl (conj _ (conj (ex_intro _ l (conj Tl Fl)) _))); [intros a Ha; discriminate Ha |].
    intro Hu. cbn [WorkspaceURL record_of_state] in Hg. specialize (Hg Hu). injection Hg as _ ->.
    split; reflexivity.
  - refine (conj eq_refl (conj _ (conj (ex_intro _ l (conj Tl Fl)) _))); [intros a Ha; discriminate Ha |].
    intro Hu. cbn [WorkspaceURL record_of_state] in Hg. specialize (Hg Hu). discriminate Hg.
  - refine (conj eq_refl (conj _ (conj (ex_intro _ l (conj Tl Fl)) _))); [intros a Ha; discriminate Ha |].
    intro Hu. cbn [WorkspaceURL record_of_state] in Hg. specialize (Hg Hu). discriminate Hg.
  - refine (conj eq_refl (conj _ (conj (ex_intro _ l (conj Tl Fl)) _))); [intros a Ha; discriminate Ha |].
    intro Hu. cbn [WorkspaceURL record_of_state] in Hg. specialize (Hg Hu). discriminate Hg.
Qed.

Lemma blind_ret {A} (k : string) (a : A) : blind_to k (@ret ResourceData A a).
Proof. intros d1 d2 H; split; [reflexivity | exact H]. Qed.

Lemma blind_set_or (K k : string) (v : Value) (msg : string) (next : ST ResourceData unit) :
  blind_to K next -> blind_to K (set_or k v msg next).
Proof.
  intros Hn d1 d2 [Hi [Ho Hs]]. rewrite !set_or_eq. apply Hn.
  cbn [dSet snd rd_Id old_state new_state]. refine (conj Hi (conj Ho _)).
  intros k' Hk. cbn [new_state]. destruct (String.eqb k' k); [reflexivity | apply Hs; exact Hk].
Qed.

Lemma blind_bind {A B} (K : string) (m : ST ResourceData A) (k : A -> ST ResourceData B) :
  blind_to K m -> (forall a, blind_to K (k a)) -> blind_to K (bind m k).
Proof.
  intros Hm Hk d1 d2 H. unfold bind. destruct (Hm d1 d2 H) as [F S].
  destruct (m d1) as [r1 s1], (m d2) as [r2 s2]. cbn [fst snd] in F, S. subst r2.
  destruct r1 as [a | e | p |]; [apply Hk; exact S | split; [reflexivity | exact S] ..].
Qed.

Lemma blind_deref {A} (K : string) (p : option A) : blind_to K (@deref ResourceData A p).
Proof. intros d1 d2 H; destruct p; split; (reflexivity || exact H). Qed.

Lemma blind_index (K : string) (l : list string) (i : Z) : blind_to K (@index ResourceData l i).
Proof. intros d1 d2 H; unfold index; destruct (_ && _); split; (reflexivity || exact H). Qed.

Lemma bind_blind (K : string) (r : IPAMReservation) : blind_to K (bindIPAMReservationResource r).
Proof.
  unfold bindIPAMReservationResource.
  repeat first [ apply blind_set_or | apply blind_ret
               | apply blind_bind; [first [apply blind_deref | apply blind_index] | intro] ].
  match goal with |- blind_to _ (let (_, _) := ?x in _) => destruct x end.
  apply blind_set_or, blind_ret.
Qed.

Lemma record_of_state_same_but (d1 d2 : ResourceData) :
  same_but "dns_search_suffix" d1 d2 -> record_of_state d1 = record_of_state d2.
Proof.
  intros [_ [_ Hn]]. unfold record_of_state, getS, getI, getM, Get.
  rewrite !Hn by discriminate. reflexivity.
Qed.

(** X13: Create does not depend on the planned [dns_search_suffix]: two
    well-typed planned states that differ only there give the same
    outcome and the same requests, and resource data that again differ
    only there. *)
Theorem create_ignores_dns_search_suffix (d1 d2 : ResourceData) (config : Config) (w : World) :
  state_well_typed d1 = true -> state_well_typed d2 = true ->
  same_but "dns_search_suffix" d1 d2 ->
  fst (fst (resourceIPAMReservationCreate d1 config w)) =
    fst (fst (resourceIPAMReservationCreate d2 config w)) /\
  snd (resourceIPAMReservationCreate d1 config w) = snd (resourceIPAMReservationCreate d2 config w) /\
  same_but "dns_search_suffix" (snd (fst (resourceIPAMReservationCreate d1 config w)))
    (snd (fst (resourceIPAMReservationCreate d2 config w))).
Proof.
  intros T1 T2 H. unfold resourceIPAMReservationCreate.
  rewrite (create_record_ok d1 w T1), (create_record_ok d2 w T2), (record_of_state_same_but d1 d2 H).
  destruct (CreateIPAMReservation config (record_of_state d2) w) as [[[r | e | p |] rec] w3];
    [| split; [reflexivity | split; [reflexivity | exact H]] ..].
  assert (HS : same_but "dns_search_suffix" (SetId (Itoa (ID r)) d1) (SetId (Itoa (ID r)) d2)).
  { destruct H as [_ [Ho Hn]]. exact (conj eq_refl (conj Ho Hn)). }
  destruct (bind_blind "dns_search_suffix" r _ _ HS) as [F S].
  destruct (bindIPAMReservationResource r (SetId (Itoa (ID r)) d1)) as [x1 e1],
           (bindIPAMReservationResource r (SetId (Itoa (ID r)) d2)) as [x2 e2].
  cbn [fst snd] in F, S |- *. split; [exact F | split; [reflexivity | exact S]].
Qed.

(** X14: once the asynchronous request has returned a job, fetching the
    managed object panics on a job without links; otherwise it issues
    exactly one more request, the GET of the job's managed-object href on
    the configured host, never panics, and returns the job with an object
    exactly when that GET is answered by a status below 400 and a body
    that [json.Unmarshal] decodes into a reservation, the object being
    the decoded record. *)
Theorem fetchManaged_after_job (req : Request) (config : Config) (verb : string) (w : World)
    (j : JobStatus) (w2 : World) :
  handleAsyncRequest req config verb w = (Ok j, w2) ->
  (js_Links j = None -> handleAsyncRequestAndFetchManagdObject req config verb w = (Panic nil_deref, w2)) /\
  (forall l, js_Links j = Some l ->
     let u := urlFromHref config (Href (jl_ManagedObject l)) in
     trace (snd (handleAsyncRequestAndFetchManagdObject req config verb w)) =
       (trace w2 ++ [mkRequest "GET" u None])%list /\
     (forall p, fst (handleAsyncRequestAndFetchManagdObject req config verb w) <> Panic p) /\
     (forall e, fst (handleAsyncRequestAndFetchManagdObject req config verb w) = Ok (j, e) <->
        exists dur st b rest, script w2 = mkReply dur (DoResp st b) :: rest /\ st < 400 /\
                              decodeReservation b = Some e)).
Proof.
  intro H.
  assert (D : handleAsyncRequestAndFetchManagdObject req config verb w =
              match js_Links j with
              | None => (Panic nil_deref, w2)
              | Some l => bind (doGet config (urlFromHref config (Href (jl_ManagedObject l))) decodeReservation)
                            (fun e => ret (j, e)) w2
              end).
  { unfold handleAsyncRequestAndFetchManagdObject, bind at 1. rewrite H. destruct (js_Links j); reflexivity. }
  rewrite D. split; [intro Hn; rewrite Hn; reflexivity |].
  intros l Hl u. rewrite Hl. fold u.
  destruct (doGet_spec config u decodeReservation w2) as [Ht [Hp [Hok _]]].
  unfold bind.
  destruct (doGet config u decodeReservation w2) as [[e0 | m | p |] w3]; cbn [fst snd] in Ht, Hp, Hok |- *.
  - refine (conj Ht (conj _ _)); [intros p H'; discriminate H' |].
    intro e. rewrite <- (Hok e). split.
    + intro He. injection He as <-. reflexivity.
    + intro He. injection He as <-. reflexivity.
  - refine (conj Ht (conj _ _)); [intros p H'; discriminate H' |].
    intro e. rewrite <- (Hok e). split; intro He; discriminate He.
  - destruct (Hp p eq_refl).
  - refine (conj Ht (conj _ _)); [intros p H'; discriminate H' |].
    intro e. rewrite <- (Hok e). split; intro He; discriminate He.
Qed.

(** ** Witnesses *)

Lemma findWorkspaceURLOrDefault_default_found_witness :
  findWorkspaceURLOrDefault ex_config "" ex_world_default =
  (Ok (itemURL ex_config WorkspaceResourceType (ws_ID ex_default_workspace)),
   mkWorld (clock ex_world_default + 3)
     (trace ex_world_default ++ [mkRequest "GET" (defaultWorkspaceURL ex_config) None]) []).
Proof.
  exact (findWorkspaceURLOrDefault_default_found ex_config ex_world_default 3 200 ex_default_workspace [] []
           eq_refl ltac:(lia) ltac:(unfold int_min, int_max; cbn [ws_ID ex_default_workspace]; lia)).
Defined.

Lemma waitForJob_bounded_fetches_witness :
  ((721 <= length (script ex_world_instant))%nat -> fst (waitForJob 7 ex_config ex_world_instant) <> Stuck) /\
  exists l, trace (snd (waitForJob 7 ex_config ex_world_instant)) = (trace ex_world_instant ++ l)%list /\
            Forall (eq (jobGET ex_config 7)) l /\ (length l <= 721)%nat.
Proof.
  apply waitForJob_bounded_fetches. apply Forall_forall. intros x Hx.
  unfold ex_world_instant in Hx. cbn [script] in Hx. apply in_app_or in Hx.
  destruct Hx as [Hx | [Hx | []]]; [apply repeat_spec in Hx |]; subst x; cbn [duration job_reply]; lia.
Defined.

Lemma handleAsyncRequest_rejected_witness :
  fst (handleAsyncRequest ex_delete ex_config "DELETE" ex_world_rejected) = Panic nil_deref.
Proof.
  exact (proj1 (proj2 (handleAsyncRequest_rejected ex_delete ex_config "DELETE" ex_world_rejected 2 404
                         (PText "not found") [] eq_refl ltac:(lia))) eq_refl).
Defined.

Lemma DeleteIPAMReservation_rejected_panics_witness :
  DeleteIPAMReservation ex_config 5 ex_world_rejected =
  (Panic nil_deref,
   mkWorld (clock ex_world_rejected + 2)
     (trace ex_world_rejected ++ [mkRequest "DELETE" (itemURL ex_config IPAMReservationResourceType 5) None]) []).
Proof.
  exact (DeleteIPAMReservation_rejected_panics ex_config 5 ex_world_rejected _ [] eq_refl
           (fun st b H => match H in _ = o return (match o with DoResp s _ => 400 <= s | DoErr _ => True end)
                          with eq_refl => ltac:(cbn; lia) end)).
Defined.

Lemma DeleteIPAMReservation_spec_witness :
  let del := mkRequest "DELETE" (itemURL ex_config IPAMReservationResourceType 5) None in
  let w1 := mkWorld (clock ex_world_delete + 0) (trace ex_world_delete ++ [del])
              [job_reply 0 (ex_job "Successful" None)] in
  (exists l, trace (snd (DeleteIPAMReservation ex_config 5 ex_world_delete)) = (trace ex_world_delete ++ del :: l)%list /\
             Forall (eq (jobGET ex_config (js_ID (ex_job "Pending" None)))) l) /\
  (fst (DeleteIPAMReservation ex_config 5 ex_world_delete) = Ok tt <->
   exists j w2, waitForJob (js_ID (ex_job "Pending" None)) ex_config w1 = (Ok (Some j), w2) /\
                JobState j = JobSuccess).
Proof.
  exact (DeleteIPAMReservation_spec ex_config 5 ex_world_delete 0 200 (ex_job "Pending" None)
           [job_reply 0 (ex_job "Successful" None)] eq_refl ltac:(lia)).
Defined.

Lemma bindIPAMReservationResource_writes_witness :
  new_state (snd (bindIPAMReservationResource ex_created ex_rd_saved)) "policy_id" = VInt 42 /\
  new_state (snd (bindIPAMReservationResource ex_created ex_rd_saved)) "hostname" = VStr "".
Proof.
  destruct (bindIPAMReservationResource_writes ex_created ex_rd_saved
              (ex_reservation_links "/api/v3/onefuse/modulePolicies/42/") eq_refl
              ltac:(apply Nat.leb_le; vm_compute; reflexivity))
    as (_ & _ & _ & _ & _ & _ & _ & _ & _ & _ & _ & _ & _ & P & O).
  split.
  - rewrite P. vm_compute. reflexivity.
  - rewrite O; [reflexivity |]. unfold bound_fields. cbn [In]. intuition discriminate.
Defined.

Lemma read_delete_bad_id_witness :
  resourceIPAMReservationRead ex_rd_named ex_config ex_world_empty =
    (Err ("strconv.Atoi: parsing " ++ dq ++ "web01" ++ dq ++ ": invalid syntax"), ex_rd_named, ex_world_empty) /\
  resourceIPAMReservationDelete ex_rd_named ex_config ex_world_empty =
    (Err ("strconv.Atoi: parsing " ++ dq ++ "web01" ++ dq ++ ": invalid syntax"), ex_rd_named, ex_world_empty).
Proof.
  exact (read_delete_bad_id ex_rd_named ex_config ex_world_empty _ ltac:(vm_compute; reflexivity)).
Defined.

Lemma read_rejected_keeps_resource_witness :
  let u := itemURL ex_config IPAMReservationResourceType 5 in
  resourceIPAMReservationRead ex_rd_saved ex_config ex_world_rejected =
  (Err (wrap ("athena.apiClient: Request failed GET " ++ u) (body_string (PText "not found"))), ex_rd_saved,
   mkWorld (clock ex_world_rejected + 2) (trace ex_world_rejected ++ [mkRequest "GET" u None]) []).
Proof.
  exact (read_rejected_keeps_resource ex_rd_saved ex_config ex_world_rejected 5 2 404 (PText "not found") []
           ltac:(vm_compute; reflexivity) eq_refl ltac:(lia)).
Defined.

Lemma read_refreshes_from_server_witness :
  resourceIPAMReservationRead ex_rd_saved ex_config ex_world_fetched =
  (bind_outcome ex_created, snd (bindIPAMReservationResource ex_created ex_rd_saved),
   mkWorld (clock ex_world_fetched + 0)
     (trace ex_world_fetched ++ [mkRequest "GET" (itemURL ex_config IPAMReservationResourceType 5) None]) []).
Proof.
  exact (read_refreshes_from_server ex_rd_saved ex_config ex_world_fetched 5 0 200 ex_created []
           ltac:(vm_compute; reflexivity) eq_refl ltac:(lia)).
Defined.

Lemma create_then_read_fetches_created_witness :
  exists rec r rec', create_record ex_rd_new ex_world_create_ok = (Ok rec, ex_world_create_ok) /\
    CreateIPAMReservation ex_config rec ex_world_create_ok = (Ok r, rec', snd ex_create_run) /\
    rd_Id (snd (fst ex_create_run)) = Itoa (ID r) /\ old_state (snd (fst ex_create_run)) = old_state ex_rd_new /\
    (int_min <= ID r <= int_max ->
     trace (snd (resourceIPAMReservationRead (snd (fst ex_create_run)) ex_config ex_world_empty)) =
     (trace ex_world_empty ++ [mkRequest "GET" (itemURL ex_config IPAMReservationResourceType (ID r)) None])%list).
Proof.
  apply (create_then_read_fetches_created ex_rd_new (snd (fst ex_create_run)) ex_config ex_world_create_ok
           (snd ex_create_run) ex_world_empty).
  vm_compute. reflexivity.
Defined.

Lemma create_without_policy_id_witness :
  let '(res, d', w') := resourceIPAMReservationCreate ex_rd_no_policy ex_config ex_world_empty in
  d' = ex_rd_no_policy /\ (forall a, res <> Ok a) /\
  (exists l, trace w' = (trace ex_world_empty ++ l)%list /\ Forall is_get l) /\
  (getS ex_rd_no_policy "workspace_url" <> "" -> res = Err PolicyRequiredMessage /\ w' = ex_world_empty).
Proof.
  exact (create_without_policy_id ex_rd_no_policy ex_config ex_world_empty
           ltac:(vm_compute; reflexivity) eq_refl).
Defined.

Lemma create_ignores_dns_search_suffix_witness :
  fst (fst (resourceIPAMReservationCreate ex_rd_new ex_config ex_world_create_ok)) =
    fst (fst (resourceIPAMReservationCreate ex_rd_new_suffix ex_config ex_world_create_ok)) /\
  snd (resourceIPAMReservationCreate ex_rd_new ex_config ex_world_create_ok) =
    snd (resourceIPAMReservationCreate ex_rd_new_suffix ex_config ex_world_create_ok) /\
  same_but "dns_search_suffix" (snd (fst (resourceIPAMReservationCreate ex_rd_new ex_config ex_world_create_ok)))
    (snd (fst (resourceIPAMReservationCreate ex_rd_new_suffix ex_config ex_world_create_ok))).
Proof.
  apply create_ignores_dns_search_suffix;
    [vm_compute; reflexivity | vm_compute; reflexivity |].
  split; [reflexivity | split; [reflexivity |]].
  intros k Hk. cbn [new_state ex_rd_new_suffix].
  destruct (String.eqb_spec k "dns_search_suffix"); [contradiction | reflexivity].
Defined.

Lemma fetchManaged_after_job_witness :
  fst (handleAsyncRequestAndFetchManagdObject ex_post ex_config "POST" ex_world_create_ok) =
  Ok (ex_job "Successful" None, ex_created).
Proof.
  destruct (fetchManaged_after_job ex_post ex_config "POST" ex_world_create_ok (ex_job "Successful" None)
              (snd ex_submit_run) ltac:(vm_compute; reflexivity)) as [_ H].
  pose proof (H ex_job_links eq_refl) as H1. cbv zeta in H1. destruct H1 as (_ & _ & Hok).
  apply Hok. exists 0, 200, (PReservation ex_created), [].
  split; [vm_compute; reflexivity | split; [lia | reflexivity]].
Defined.
